(** * Follower evaluation pipeline: decision policy, evaluators, retry wrapper

    A shallow embedding of the Python sources

      - app/utils/helpers.py   ([async_retry], [_calculate_delay],
                                [validate_required_fields])
      - app/core/engagement.py ([EngagementChecker.check_engagement])
      - app/core/profile.py    ([ProfileAnalyzer.analyze_profile])
      - app/core/analyzer.py   ([ProfileAnalyzer._calculate_risk_score],
                                [_gather_metrics], [analyze_profile_risk])
      - app/core/workflow.py   ([WorkflowController._determine_action],
                                [_generate_recommendations], [audit_follower])

    Modelling conventions.

      - Python [float] scores are exact rationals ([Q]); a decimal literal
        denotes its decimal value.  Statements about scores use [==]
        ([Qeq]), the equality of rationals.
      - Python [int] is [Z].
      - A [dict] with string keys is a [gmap string _].
      - A Python value that may be [None] is an [option]; [None] is [None].
      - Code that raises returns an [Outcome]; code with effects threads a
        state explicitly.  Calls to [random], to the loggers and to
        [asyncio.sleep] are effects: random draws come from an oracle in the
        state, log calls and sleeps are recorded in a trace. *)

From Stdlib Require Import QArith Qminmax Qround Qpower Lqa ZArith Lia.
From Stdlib Require Import String Ascii List Bool.
From stdpp Require Import gmap strings pretty.
Import ListNotations.

Local Open Scope Q_scope.
Local Open Scope string_scope.

(** ** Python exceptions *)

Module Py.

(** The slice of the built-in exception hierarchy the sources raise, catch or
    name.  [CancelledError] and [KeyboardInterrupt] derive from
    [BaseException] directly, so [except Exception] does not catch them. *)
Inductive ExnClass : Type :=
  | BaseException
  | Exception
  | KeyboardInterrupt
  | CancelledError
  | ArithmeticError
  | AttributeError
  | ZeroDivisionError
  | LookupError
  | KeyError
  | NameError
  | OSError
  | ConnectionError
  | ConnectionResetError
  | TimeoutError
  | RuntimeError
  | TypeError
  | ValueError.

#[global] Instance ExnClass_eq_dec : EqDecision ExnClass.
Proof. solve_decision. Defined.

(** The direct base class. *)
Definition base (c : ExnClass) : option ExnClass :=
  match c with
  | BaseException => None
  | Exception | KeyboardInterrupt | CancelledError => Some BaseException
  | ArithmeticError | AttributeError | LookupError | NameError | OSError
  | RuntimeError | TypeError | ValueError => Some Exception
  | ZeroDivisionError => Some ArithmeticError
  | KeyError => Some LookupError
  | ConnectionError | TimeoutError => Some OSError
  | ConnectionResetError => Some ConnectionError
  end.

Fixpoint issubclass_fuel (fuel : nat) (c d : ExnClass) : bool :=
  if decide (c = d) then true
  else match fuel, base c with
       | S fuel', Some c' => issubclass_fuel fuel' c' d
       | _, _ => false
       end.

(** The hierarchy above has depth four. *)
Definition issubclass (c d : ExnClass) : bool := issubclass_fuel 4 c d.

Record Exn : Type := mkExn { exn_class : ExnClass; exn_msg : string }.

#[global] Instance Exn_eq_dec : EqDecision Exn.
Proof. solve_decision. Defined.

(** [isinstance(e, classes)] for a tuple of classes: what an
    [except classes as e] clause tests. *)
Definition isinstance (e : Exn) (classes : list ExnClass) : bool :=
  existsb (issubclass (exn_class e)) classes.

(** What a call does: return a value or raise. *)
Inductive Outcome (A : Type) : Type :=
  | Return (a : A)
  | Raise (e : Exn).
#[global] Arguments Return {A} a.
#[global] Arguments Raise {A} e.

(** [sum(xs)]: starts from [0] and adds from the left. *)
Definition sum (xs : list Q) : Q := fold_left Qplus xs 0.

(** [s.lower()] on ASCII letters; other bytes are kept. *)
Definition lower_ascii (c : ascii) : ascii :=
  let n := nat_of_ascii c in
  if (65 <=? n)%nat && (n <=? 90)%nat then ascii_of_nat (n + 32) else c.

Fixpoint lower (s : string) : string :=
  match s with
  | EmptyString => EmptyString
  | String c s' => String (lower_ascii c) (lower s')
  end.

(** [pat in s] for strings: [pat] occurs as a contiguous substring. *)
Fixpoint contains (pat s : string) : bool :=
  String.prefix pat s ||
  match s with
  | EmptyString => false
  | String _ s' => contains pat s'
  end.

(** [", ".join(xs)] *)
Fixpoint join (sep : string) (xs : list string) : string :=
  match xs with
  | [] => ""
  | [x] => x
  | x :: rest => x ++ sep ++ join sep rest
  end.

End Py.
Import Py.

(** ** app/constants.py *)

Inductive EvaluationAction : Type := KEEP | REMOVE | MONITOR.

(** The [.value] of the [str] enum. *)
Definition action_value (a : EvaluationAction) : string :=
  match a with
  | KEEP => "keep"
  | REMOVE => "remove"
  | MONITOR => "monitor"
  end.

(** ** Comparisons of scores *)

Definition Qleb (x y : Q) : bool := Qle_bool x y.
Definition Qltb (x y : Q) : bool := negb (Qle_bool y x).
Definition Qgeb (x y : Q) : bool := Qleb y x.
Definition Qgtb (x y : Q) : bool := Qltb y x.

(** ** app/utils/helpers.py *)

Module Helpers.

(** [x / y] on numbers. *)
Definition div (x y : Q) : Outcome Q :=
  if Qeq_bool y 0 then Raise (mkExn ZeroDivisionError "division by zero")
  else Return (x / y).

(** [safe_divide] *)
Definition safe_divide (numerator denominator : Q) : Outcome Q :=
  match div numerator denominator with
  | Return q => Return q
  | Raise e =>
      if isinstance e [ZeroDivisionError] then Return 0 else Raise e
  end.

(** [validate_required_fields]: returns [None] or raises [ValueError]. *)
Definition validate_required_fields {V : Type}
  (data : gmap string V) (required_fields : list string) : Outcome unit :=
  let missing_fields :=
    List.filter
      (fun field => match data !! field with None => true | Some _ => false end)
      required_fields in
  match missing_fields with
  | [] => Return tt
  | _ :: _ =>
      Raise (mkExn ValueError
               ("Missing required fields: " ++ join ", " missing_fields))
  end.

(** What the retry wrapper does besides calling the operation, in the order
    it does it. *)
Inductive Event : Type :=
  | EvCall (attempt : Z)                    (* await func(...) *)
  | EvWarning (attempt : Z) (delay : Q)     (* logger.warning("Retry ...") *)
  | EvOnRetry (e : Exn) (attempt_number : Z) (* on_retry(e, attempt + 1) *)
  | EvCallbackError (e : Exn)               (* logger.error: callback failed *)
  | EvSleep (delay : Q)                     (* await asyncio.sleep(delay) *)
  | EvAllFailed (e : Exn).                  (* logger.error: attempts used up *)

Section Retry.

(** [S]: the state the operation and the callback act on, which holds the
    state of the [random] module.  [A]: what the operation returns when it
    does not return [None]. *)
Context {S A : Type}.

(** [random.uniform(a, b)] *)
Variable uniform : Q -> Q -> S -> Q * S.

Record World : Type := mkWorld { user : S; trace : list Event }.

Definition emit (ev : Event) (w : World) : World :=
  {| user := user w; trace := trace w ++ [ev] |}.

Definition set_user (s : S) (w : World) : World :=
  {| user := s; trace := trace w |}.

(** The arguments of [async_retry].  The two predicates are total
    functions to [bool]; [on_retry] may raise. *)
Record RetryConfig : Type := mkRetryConfig {
  max_attempts : Z;
  base_delay : Q;
  max_delay : Q;
  exceptions : list ExnClass;
  on_retry : option (Exn -> Z -> S -> Outcome unit * S);
  retry_on_result : option (option A -> bool);
  retry_on_exception : option (Exn -> bool)
}.

(** [_calculate_delay] *)
Definition _calculate_delay (attempt : Z) (base_delay max_delay : Q) (s : S)
  : Q * S :=
  let '(jitter, s') := uniform 0 1 s in
  (Qmin (base_delay * 2 ^ attempt + jitter) max_delay, s').

(** How one run of the [for] loop of [wrapper] ends. *)
Inductive LoopExit : Type :=
  | LReturn (result : option A)       (* return result *)
  | LRaise (e : Exn)                  (* raise *)
  | LDone (last_exception : option Exn) (last_result : option A).
                                      (* break, or the range is used up *)

Variable cfg : RetryConfig.
Variable func : S -> Outcome (option A) * S.

(** [retry_on_result and retry_on_result(result)] *)
Definition result_wants_retry (result : option A) : bool :=
  match retry_on_result cfg with
  | Some p => p result
  | None => false
  end.

(** [retry_on_exception and not retry_on_exception(e)] *)
Definition exception_rejected (e : Exn) : bool :=
  match retry_on_exception cfg with
  | Some p => negb (p e)
  | None => false
  end.

(** The [if on_retry: try: on_retry(e, attempt + 1) except Exception ...]
    block.  An error of the callback that [except Exception] does not
    catch leaves the wrapper. *)
Definition call_on_retry (e : Exn) (attempt : Z) (w : World)
  : option Exn * World :=
  match on_retry cfg with
  | None => (None, w)
  | Some cb =>
      let w := emit (EvOnRetry e (attempt + 1)) w in
      match cb e (attempt + 1)%Z (user w) with
      | (Return _, s') => (None, set_user s' w)
      | (Raise callback_error, s') =>
          if issubclass (exn_class callback_error) Exception
          then (None, emit (EvCallbackError callback_error) (set_user s' w))
          else (Some callback_error, set_user s' w)
      end
  end.

(** The callback, when there is one, returns or raises what
    [except Exception] catches. *)
Definition callback_contained (e : Exn) (attempt : Z) (s : S) : Prop :=
  match on_retry cfg with
  | None => True
  | Some cb =>
      match (cb e (attempt + 1)%Z s).1 with
      | Return _ => True
      | Raise callback_error =>
          issubclass (exn_class callback_error) Exception = true
      end
  end.

(** The state the callback leaves. *)
Definition after_callback (e : Exn) (attempt : Z) (s : S) : S :=
  match on_retry cfg with
  | None => s
  | Some cb => (cb e (attempt + 1)%Z s).2
  end.

(** Attempt number [attempt] (from 0), run in state [s], fails with a
    retryable error [e]: the operation raises [e], an instance of the
    configured classes that [retry_on_exception] does not reject; the
    callback's own failure, if any, is one the wrapper catches; [s'] is the
    state after the jitter draw and the callback. *)
Definition retryable_failure (attempt : Z) (s : S) (e : Exn) (s' : S) : Prop :=
  (func s).1 = Raise e /\
  isinstance e (exceptions cfg) = true /\
  exception_rejected e = false /\
  let s2 := (uniform 0 1 (func s).2).2 in
  callback_contained e attempt s2 /\
  s' = after_callback e attempt s2.

(** The operation, run in state [s], succeeds with [result]: it returns
    [result], which [retry_on_result] does not turn down, and leaves [s']. *)
Definition success (s : S) (result : option A) (s' : S) : Prop :=
  func s = (Return result, s') /\ result_wants_retry result = false.

(** The body of [for attempt in range(max_attempts)], [remaining] being
    the number of values of the range not yet taken. *)
Fixpoint retry_loop (remaining : nat) (attempt : Z)
  (last_exception : option Exn) (last_result : option A) (w : World)
  : LoopExit * World :=
  match remaining with
  | O => (LDone last_exception last_result, w)
  | Datatypes.S remaining' =>
      let w := emit (EvCall attempt) w in
      let '(out, s1) := func (user w) in
      let w := set_user s1 w in
      match out with
      | Return result =>
          if result_wants_retry result then
            let last_result := result in
            if (attempt <? max_attempts cfg - 1)%Z then
              let '(delay, s2) :=
                _calculate_delay attempt (base_delay cfg) (max_delay cfg)
                  (user w) in
              let w := set_user s2 w in
              let w := emit (EvWarning attempt delay) w in
              let w := emit (EvSleep delay) w in
              retry_loop remaining' (attempt + 1) last_exception last_result w
            else (LDone last_exception last_result, w)
          else (LReturn result, w)
      | Raise e =>
          if isinstance e (exceptions cfg) then
            let last_exception := Some e in
            if exception_rejected e then (LRaise e, w)
            else if (attempt <? max_attempts cfg - 1)%Z then
              let '(delay, s2) :=
                _calculate_delay attempt (base_delay cfg) (max_delay cfg)
                  (user w) in
              let w := set_user s2 w in
              let w := emit (EvWarning attempt delay) w in
              match call_on_retry e attempt w with
              | (Some escaped, w) => (LRaise escaped, w)
              | (None, w) =>
                  let w := emit (EvSleep delay) w in
                  retry_loop remaining' (attempt + 1) last_exception
                    last_result w
              end
            else (LRaise e, emit (EvAllFailed e) w)
          else (LRaise e, w)
      end
  end.

(** [wrapper]: the loop over [range(max_attempts)], then the code after
    the loop, where [if last_exception:] holds of any exception caught. *)
Definition async_retry (w : World) : Outcome (option A) * World :=
  match retry_loop (Z.to_nat (max_attempts cfg)) 0 None None w with
  | (LReturn result, w') => (Return result, w')
  | (LRaise e, w') => (Raise e, w')
  | (LDone last_exception last_result, w') =>
      match last_result with
      | Some _ => (Return last_result, w')
      | None =>
          match last_exception with
          | Some e => (Raise e, w')
          | None => (Return None, w')
          end
      end
  end.

End Retry.

#[global] Arguments World : clear implicits.
#[global] Arguments RetryConfig : clear implicits.
#[global] Arguments LoopExit : clear implicits.

(** The events of a trace, by kind. *)
Definition calls (t : list Event) : list Z :=
  flat_map (fun ev => match ev with EvCall a => [a] | _ => [] end) t.

Definition sleeps (t : list Event) : list Q :=
  flat_map (fun ev => match ev with EvSleep d => [d] | _ => [] end) t.

Definition on_retry_calls (t : list Event) : list (Exn * Z) :=
  flat_map (fun ev => match ev with EvOnRetry e n => [(e, n)] | _ => [] end) t.

End Helpers.

(** ** The state the evaluators run in *)

Module Runtime.

(** One evaluation's view of the process state: the outputs of
    [random.random()] still to come ([rand], read at [pos]), the time
    [datetime.now()] returns, in days, and the records passed to the audit
    logger, one for each call of [log_audit] or [log_error]; every handler
    attached to the logger then writes the record. *)
Inductive LogRecord : Type :=
  | LogAudit (username : string) (engagement_score risk_score : Q)
             (action reason : string)
  | LogError (username error : string).

Record PyState : Type := mkPyState {
  rand : nat -> Q;
  pos : nat;
  clock : Z;
  audit_log : list LogRecord
}.

(** [random.random()] *)
Definition random (s : PyState) : Q * PyState :=
  (rand s (pos s),
   {| rand := rand s; pos := Datatypes.S (pos s); clock := clock s;
      audit_log := audit_log s |}).

(** [random.uniform(a, b)] is [a + (b - a) * random()]. *)
Definition uniform (a b : Q) (s : PyState) : Q * PyState :=
  let '(x, s') := random s in (a + (b - a) * x, s').

(** [random.randint(a, b)]: an integer of [a..b] fixed by the next draw. *)
Definition randint (a b : Z) (s : PyState) : Z * PyState :=
  let '(x, s') := random s in
  ((a + Qfloor (x * inject_Z (b - a + 1)))%Z, s').

Definition write_log (r : LogRecord) (s : PyState) : PyState :=
  {| rand := rand s; pos := pos s; clock := clock s;
     audit_log := audit_log s ++ [r] |}.

End Runtime.
Import Runtime.

(** ** app/core/engagement.py *)

Module Engagement.

Record EngagementResult : Type := mkEngagementResult {
  score : Q;
  metrics : gmap string Q;
  last_interaction : option Z;
  interaction_count : Z
}.

(** The checker holds the mock data read from [data/mock_engagement.json]:
    metrics by username ([{}] when the file is absent). *)
Record EngagementChecker : Type := mkEngagementChecker {
  mock_data : gmap string (gmap string Q)
}.

(** [m.values()] and [len(m)] *)
Definition values (m : gmap string Q) : list Q := (map_to_list m).*2.
Definition len (m : gmap string Q) : Z := Z.of_nat (size m).

(** The body of [check_engagement], under its decorator.  The default
    argument of [mock_data.get] is built before the lookup, so the four
    draws happen for every username. *)
Definition check_engagement_body (self : EngagementChecker)
  (follower_data : gmap string string) (s : PyState)
  : Outcome (option EngagementResult) * PyState :=
  let username := default "Unknown" (follower_data !! "username") in
  let '(likes, s) := uniform 0 1 s in
  let '(comments, s) := uniform 0 1 s in
  let '(shares, s) := uniform 0 1 s in
  let '(saves, s) := uniform 0 1 s in
  let mock_metrics :=
    default
      ({[ "likes" := likes; "comments" := comments;
          "shares" := shares; "saves" := saves ]} : gmap string Q)
      (mock_data self !! username) in
  match Helpers.div (Py.sum (values mock_metrics))
                    (inject_Z (len mock_metrics)) with
  | Raise e => (Raise e, s)
  | Return engagement_score =>
      let '(days, s) := randint 0 30 s in
      let last_interaction := (clock s - days)%Z in
      let '(interaction_count, s) := randint 0 10 s in
      (Return (Some {| score := engagement_score;
                       metrics := mock_metrics;
                       last_interaction := Some last_interaction;
                       interaction_count := interaction_count |}), s)
  end.

(** The arguments of the decorator, the same on [check_engagement] and on
    [analyze_profile]. *)
Definition retry_config {A : Type} : Helpers.RetryConfig PyState A :=
  {| Helpers.max_attempts := 3;
     Helpers.base_delay := 1.0;
     Helpers.max_delay := 10.0;
     Helpers.exceptions := [ConnectionError; TimeoutError];
     Helpers.on_retry := None;
     Helpers.retry_on_result := None;
     Helpers.retry_on_exception := None |}.

(** [EngagementChecker.check_engagement], decorated. *)
Definition check_engagement (self : EngagementChecker)
  (follower_data : gmap string string) (w : Helpers.World PyState)
  : Outcome (option EngagementResult) * Helpers.World PyState :=
  Helpers.async_retry uniform retry_config
    (check_engagement_body self follower_data) w.

End Engagement.

(** ** app/core/profile.py *)

Module Profile.

Record ProfileResult : Type := mkProfileResult {
  risk_score : Q;
  analysis : string;
  confidence : Q
}.

(** An entry of [data/mock_profiles.json]: a JSON object whose keys may be
    missing; a key that is there holds a value of the documented type. *)
Record MockProfile : Type := mkMockProfile {
  mock_risk_score : option Q;
  mock_analysis : option string;
  mock_confidence : option Q
}.

Record ProfileAnalyzer : Type := mkProfileAnalyzer {
  mock_data : gmap string MockProfile
}.

(** [d[key]] *)
Definition getitem {V : Type} (field : option V) (key : string) : Outcome V :=
  match field with
  | Some v => Return v
  | None => Raise (mkExn KeyError ("'" ++ key ++ "'"))
  end.

(** The body of [analyze_profile], under its decorator. *)
Definition analyze_profile_body (self : ProfileAnalyzer)
  (follower_data : gmap string string) (s : PyState)
  : Outcome (option ProfileResult) * PyState :=
  let username := default "Unknown" (follower_data !! "username") in
  let '(r, s) := uniform 0 1 s in
  let '(c, s) := uniform 0.8 1.0 s in
  let mock_profile :=
    default
      {| mock_risk_score := Some r;
         mock_analysis := Some "Standard profile with normal activity";
         mock_confidence := Some c |}
      (mock_data self !! username) in
  match getitem (mock_risk_score mock_profile) "risk_score" with
  | Raise e => (Raise e, s)
  | Return risk =>
      match getitem (mock_analysis mock_profile) "analysis" with
      | Raise e => (Raise e, s)
      | Return text =>
          match getitem (mock_confidence mock_profile) "confidence" with
          | Raise e => (Raise e, s)
          | Return conf =>
              (Return (Some {| risk_score := risk; analysis := text;
                               confidence := conf |}), s)
          end
      end
  end.

(** [ProfileAnalyzer.analyze_profile], decorated. *)
Definition analyze_profile (self : ProfileAnalyzer)
  (follower_data : gmap string string) (w : Helpers.World PyState)
  : Outcome (option ProfileResult) * Helpers.World PyState :=
  Helpers.async_retry uniform Engagement.retry_config
    (analyze_profile_body self follower_data) w.

End Profile.

(** ** app/core/analyzer.py *)

Module Analyzer.

Record ProfileMetrics : Type := mkProfileMetrics {
  authenticity_score : Q;
  engagement_potential : Q;
  risk_level : Q;
  interaction_pattern : Q;
  account_age : Q
}.

(** [self.weights], by key. *)
Record Weights : Type := mkWeights {
  activity : Q;
  content : Q;
  interaction : Q;
  age : Q
}.

(** The weights [__init__] sets. *)
Definition default_weights : Weights :=
  {| activity := 0.3; content := 0.3; interaction := 0.2; age := 0.2 |}.

(** [np.mean(xs)] of a non-empty list. *)
Definition mean (xs : list Q) : Q :=
  Py.sum xs / inject_Z (Z.of_nat (length xs)).

(** [ProfileAnalyzer._gather_metrics] *)
Definition _gather_metrics (profile_id : string) : ProfileMetrics :=
  {| authenticity_score := 0.5;
     engagement_potential := 0.6;
     risk_level := 0.4;
     interaction_pattern := 0.8;
     account_age := 0.9 |}.

(** [ProfileAnalyzer._calculate_risk_score] *)
Definition _calculate_risk_score (weights : Weights) (metrics : ProfileMetrics)
  : Q :=
  let scores :=
    [ authenticity_score metrics * activity weights;
      engagement_potential metrics * content weights;
      risk_level metrics * interaction weights;
      interaction_pattern metrics * interaction weights;
      account_age metrics * age weights ] in
  mean scores.

(** [ProfileAnalyzer.analyze_profile_risk] *)
Definition analyze_profile_risk (weights : Weights) (profile_id : string) : Q :=
  let metrics := _gather_metrics profile_id in
  _calculate_risk_score weights metrics.

End Analyzer.

(** ** app/core/workflow.py *)

Module Workflow.

(** [WorkflowController._determine_action] *)
Definition _determine_action (engagement_score risk_score : Q)
  : EvaluationAction :=
  if Qgeb engagement_score 0.7 && Qleb risk_score 0.3 then KEEP
  else if Qgeb engagement_score 0.5 && Qleb risk_score 0.5 then MONITOR
  else if Qleb engagement_score 0.3 || Qgeb risk_score 0.7 then REMOVE
  else MONITOR.

Definition LOW_ENGAGEMENT : string :=
  "Low engagement - Consider removing if no improvement".
Definition HIGH_RISK : string :=
  "High risk - Monitor closely or remove".
Definition PRIVATE_ACCOUNT : string :=
  "Private account - Consider impact on engagement".
Definition INACTIVE_ACCOUNT : string :=
  "Inactive account - May be safe to remove".

(** The notices, in the order the generator appends them. *)
Definition notices : list string :=
  [LOW_ENGAGEMENT; HIGH_RISK; PRIVATE_ACCOUNT; INACTIVE_ACCOUNT].

(** [recommendations.append(x)] guarded by a condition. *)
Definition append_if (c : bool) (x : string) (recommendations : list string)
  : list string :=
  if c then recommendations ++ [x] else recommendations.

(** [WorkflowController._generate_recommendations]: the list starts empty
    and the four guarded appends run one after the other. *)
Definition _generate_recommendations
  (engagement_score risk_score : Q) (analysis : string) : list string :=
  let recommendations := [] in
  let recommendations :=
    append_if (Qltb engagement_score 0.5) LOW_ENGAGEMENT recommendations in
  let recommendations :=
    append_if (Qgtb risk_score 0.5) HIGH_RISK recommendations in
  let recommendations :=
    append_if (contains "private" (lower analysis)) PRIVATE_ACCOUNT
      recommendations in
  let recommendations :=
    append_if (contains "inactive" (lower analysis)) INACTIVE_ACCOUNT
      recommendations in
  recommendations.



Record WorkflowController : Type := mkWorkflowController {
  engagement_checker : Engagement.EngagementChecker;
  profile_analyzer : Profile.ProfileAnalyzer
}.

(** The dictionary [audit_follower] returns, by key. *)
Record AuditDict : Type := mkAuditDict {
  username : string;
  engagement_score : Q;
  risk_score : Q;
  action : string;
  reason : string;
  recommendations : list string
}.

(** [x.attr] on a value that may be [None]. *)
Definition getattr {A B : Type} (x : option A) (attr : A -> B) (name : string)
  : Outcome B :=
  match x with
  | Some a => Return (attr a)
  | None =>
      Raise (mkExn AttributeError
               ("'NoneType' object has no attribute '" ++ name ++ "'"))
  end.

Definition log_audit (r : LogRecord) (w : Helpers.World PyState)
  : Helpers.World PyState :=
  Helpers.set_user (write_log r (Helpers.user w)) w.

(** The [try] block of [audit_follower]. *)
Definition audit_follower_try (self : WorkflowController)
  (follower_data : gmap string string) (name : string)
  (w : Helpers.World PyState) : Outcome AuditDict * Helpers.World PyState :=
  match Engagement.check_engagement (engagement_checker self) follower_data w
  with
  | (Raise e, w) => (Raise e, w)
  | (Return engagement_result, w) =>
  match getattr engagement_result Engagement.score "score" with
  | Raise e => (Raise e, w)
  | Return e_score =>
  match Profile.analyze_profile (profile_analyzer self) follower_data w with
  | (Raise e, w) => (Raise e, w)
  | (Return profile_result, w) =>
  match getattr profile_result Profile.risk_score "risk_score" with
  | Raise e => (Raise e, w)
  | Return r_score =>
  match getattr profile_result Profile.analysis "analysis" with
  | Raise e => (Raise e, w)
  | Return text =>
      let act := _determine_action e_score r_score in
      let recs := _generate_recommendations e_score r_score text in
      let w := log_audit (LogAudit name e_score r_score (action_value act) text)
                 w in
      (Return {| username := name;
                 engagement_score := e_score;
                 risk_score := r_score;
                 action := action_value act;
                 reason := text;
                 recommendations := recs |}, w)
  end end end end end.

(** [WorkflowController.audit_follower]: the [try] block, and the handler
    [except Exception as e: self.logger.log_error(username, str(e)); raise]. *)
Definition audit_follower (self : WorkflowController)
  (follower_data : gmap string string) (w : Helpers.World PyState)
  : Outcome AuditDict * Helpers.World PyState :=
  let name := default "Unknown" (follower_data !! "username") in
  match audit_follower_try self follower_data name w with
  | (Return result, w) => (Return result, w)
  | (Raise e, w) =>
      if issubclass (exn_class e) Exception
      then (Raise e, log_audit (LogError name (exn_msg e)) w)
      else (Raise e, w)
  end.

End Workflow.

(** ** app/ui/dashboard.py: the ingestion of an uploaded JSON file *)

Module Dashboard.

(** An item of the uploaded list: a dictionary or something else. *)
Inductive JsonItem : Type :=
  | JDict (follower : gmap string string)
  | JOther.

(** The [for] loop of [process_json_data], [processed_data] being the list
    built so far.  The message of the error ends with the record, which is
    left out here. *)
Fixpoint process_json_loop (data : list JsonItem)
  (processed_data : list (gmap string string))
  : Outcome (list (gmap string string)) :=
  match data with
  | [] => Return processed_data
  | JOther :: data' => process_json_loop data' processed_data
  | JDict follower :: data' =>
      match follower !! "username" with
      | None => Raise (mkExn ValueError "Missing username in follower data")
      | Some _ => process_json_loop data' (processed_data ++ [follower])%list
      end
  end.

(** [process_json_data] *)
Definition process_json_data (data : list JsonItem)
  : Outcome (list (gmap string string)) :=
  process_json_loop data [].

End Dashboard.

(** ** The specification's own formulas *)

Module Spec.

(** The arithmetic mean of a list of values: their sum over their number. *)
Definition arithmetic_mean (xs : list Q) : Q :=
  fold_right Qplus 0 xs / inject_Z (Z.of_nat (length xs)).

(** The weighted mean of the four sub-signals under the four weights. *)
Definition weighted_mean (w : Analyzer.Weights)
  (activity content interaction age : Q) : Q :=
  (Analyzer.activity w * activity + Analyzer.content w * content +
   Analyzer.interaction w * interaction + Analyzer.age w * age) /
  (Analyzer.activity w + Analyzer.content w +
   Analyzer.interaction w + Analyzer.age w).

(** A score or metric of the unit interval. *)
Definition unit_interval (x : Q) : Prop := 0 <= x /\ x <= 1.

Definition unit_metrics (m : Analyzer.ProfileMetrics) : Prop :=
  unit_interval (Analyzer.authenticity_score m) /\
  unit_interval (Analyzer.engagement_potential m) /\
  unit_interval (Analyzer.risk_level m) /\
  unit_interval (Analyzer.interaction_pattern m) /\
  unit_interval (Analyzer.account_age m).

(** Evaluation of a record surfaces a validation failure: it raises a
    [ValueError] and returns no audit result. *)
Definition surfaces_validation_failure (self : Workflow.WorkflowController)
  (follower_data : gmap string string) (w : Helpers.World PyState) : Prop :=
  exists e w',
    Workflow.audit_follower self follower_data w = (Raise e, w') /\
    exn_class e = ValueError.

End Spec.

(** ** Concrete runs *)

Module Examples.

Import Helpers.

Definition refused : Exn := mkExn ConnectionError "connection refused".

(** An operation on a call counter: it raises [ConnectionError] on its
    first two calls and returns 42 from the third on. *)
Definition flaky (k : nat) : Outcome (option Z) * nat :=
  if (k <? 2)%nat
  then (Raise refused, Datatypes.S k)
  else (Return (Some 42%Z), Datatypes.S k).

(** An operation that raises [ValueError] whenever called. *)
Definition invalid (k : nat) : Outcome (option Z) * nat :=
  (Raise (mkExn ValueError "Following list cannot be empty"), Datatypes.S k).

(** A generator stuck on the middle of its range. *)
Definition uniform_mid {S : Type} (a b : Q) (s : S) : Q * S :=
  (a + (b - a) * 0.5, s).

(** The callback of the decorators in app/core/analyzer.py; that module
    binds no [logger], so the call raises [NameError]. *)
Definition warn_callback (e : Exn) (attempt : Z) (k : nat)
  : Outcome unit * nat :=
  (Raise (mkExn NameError "name 'logger' is not defined"), k).

Definition analyzer_config (attempts : Z) : RetryConfig nat Z :=
  {| max_attempts := attempts;
     base_delay := 1.0;
     max_delay := 10.0;
     exceptions := [ConnectionError; TimeoutError];
     on_retry := Some warn_callback;
     retry_on_result := None;
     retry_on_exception := None |}.

Definition fresh : World nat := {| user := 0%nat; trace := [] |}.

(** A process state whose generator returns 1/2 at every draw. *)
Definition state0 : PyState :=
  {| rand := fun _ => 0.5; pos := 0; clock := 20000; audit_log := [] |}.

Definition world0 : World PyState := {| user := state0; trace := [] |}.

(** A controller without mock data files. *)
Definition bare_controller : Workflow.WorkflowController :=
  {| Workflow.engagement_checker := {| Engagement.mock_data := ∅ |};
     Workflow.profile_analyzer := {| Profile.mock_data := ∅ |} |}.

(** A checker whose mock data has an entry without metrics. *)
Definition alice_checker : Engagement.EngagementChecker :=
  {| Engagement.mock_data := {[ "alice" := ∅ ]} |}.

Definition alice : gmap string string := {[ "username" := "alice" ]}.

(** A checker whose mock data has an entry with three metrics. *)
Definition bob_checker : Engagement.EngagementChecker :=
  {| Engagement.mock_data :=
       {[ "bob" := {[ "likes" := 0.9; "comments" := 0.6; "saves" := 0 ]} ]} |}.

Definition bob : gmap string string := {[ "username" := "bob" ]}.

Definition all_ones : Analyzer.ProfileMetrics :=
  {| Analyzer.authenticity_score := 1;
     Analyzer.engagement_potential := 1;
     Analyzer.risk_level := 1;
     Analyzer.interaction_pattern := 1;
     Analyzer.account_age := 1 |}.

End Examples.

(** ** app/utils/helpers.py: [normalize_score] and the synchronous [retry] *)

Module Util.

(** [normalize_score]: [max(min_val, min(max_val, score))]. *)
Definition normalize_score (score min_val max_val : Q) : Q :=
  Qmax min_val (Qmin max_val score).

(** What the synchronous wrapper does besides calling the operation. *)
Inductive Event : Type :=
  | Call (attempt : Z)              (* the call of func *)
  | Sleep (delay : Q)               (* time.sleep(current_delay) *)
  | Warning (attempt_number : Z).   (* logging.warning("Retry attempt ...") *)

Section Retry.

Context {S A : Type}.

Record World : Type := mkWorld { user : S; trace : list Event }.

Definition emit (ev : Event) (w : World) : World :=
  {| user := user w; trace := (trace w ++ [ev])%list |}.

Definition set_user (s : S) (w : World) : World :=
  {| user := s; trace := trace w |}.

(** The arguments of [retry]. *)
Record RetryArgs : Type := mkRetryArgs {
  max_attempts : Z;
  delay : Q;
  backoff : Q;
  exceptions : list ExnClass
}.

(** How the [for] loop of the wrapper ends. *)
Inductive LoopExit : Type :=
  | LReturn (result : option A)          (* return func(...) *)
  | LRaise (e : Exn)                     (* an error the clause does not catch *)
  | LDone (last_exception : option Exn). (* the range is used up *)

Variable args : RetryArgs.
Variable func : S -> Outcome (option A) * S.

(** The body of [for attempt in range(max_attempts)]. *)
Fixpoint retry_loop (remaining : nat) (attempt : Z) (current_delay : Q)
  (last_exception : option Exn) (w : World) : LoopExit * World :=
  match remaining with
  | O => (LDone last_exception, w)
  | Datatypes.S remaining' =>
      let w := emit (Call attempt) w in
      let '(out, s1) := func (user w) in
      let w := set_user s1 w in
      match out with
      | Return result => (LReturn result, w)
      | Raise e =>
          if isinstance e (exceptions args) then
            let last_exception := Some e in
            if (attempt <? max_attempts args - 1)%Z then
              let w := emit (Sleep current_delay) w in
              let current_delay := current_delay * backoff args in
              let w := emit (Warning (attempt + 1)) w in
              retry_loop remaining' (attempt + 1) current_delay
                last_exception w
            else
              retry_loop remaining' (attempt + 1) current_delay
                last_exception w
          else (LRaise e, w)
      end
  end.

(** [wrapper]: the loop, then [raise last_exception]; raising [None] is a
    [TypeError]. *)
Definition retry (w : World) : Outcome (option A) * World :=
  match retry_loop (Z.to_nat (max_attempts args)) 0 (delay args) None w with
  | (LReturn result, w') => (Return result, w')
  | (LRaise e, w') => (Raise e, w')
  | (LDone (Some e), w') => (Raise e, w')
  | (LDone None, w') =>
      (Raise (mkExn TypeError "exceptions must derive from BaseException"), w')
  end.

End Retry.

#[global] Arguments World : clear implicits.
#[global] Arguments LoopExit : clear implicits.

(** The defaults of [retry]. *)
Definition retry_defaults : RetryArgs :=
  {| max_attempts := 3; delay := 1.0; backoff := 2.0;
     exceptions := [Exception] |}.

Definition calls (t : list Event) : list Z :=
  flat_map (fun ev => match ev with Call a => [a] | _ => [] end) t.

Definition sleeps (t : list Event) : list Q :=
  flat_map (fun ev => match ev with Sleep d => [d] | _ => [] end) t.

(** [n] delays from [d], each [b] times the one before. *)
Fixpoint geometric (d b : Q) (n : nat) : list Q :=
  match n with
  | O => []
  | Datatypes.S n' => d :: geometric (d * b) b n'
  end.

(** The attempt numbers [a, a + 1, ...], [n] of them. *)
Fixpoint attempts_from (a : Z) (n : nat) : list Z :=
  match n with
  | O => []
  | Datatypes.S n' => a :: attempts_from (a + 1) n'
  end.

End Util.

(** ** app/core/analyzer.py: the two decorated analyses *)

Module AnalyzerOps.

(** The state the analyses act on: the process state, the sleeps of the
    operation itself and the lines of the module logger. *)
Record OpState : Type := mkOpState {
  py : PyState;
  slept : list Q;
  errors : list string
}.

Definition uniform (a b : Q) (s : OpState) : Q * OpState :=
  let '(x, p) := Runtime.uniform a b (py s) in
  (x, {| py := p; slept := slept s; errors := errors s |}).

Definition sleep (d : Q) (s : OpState) : OpState :=
  {| py := py s; slept := (slept s ++ [d])%list; errors := errors s |}.

Definition log_error (line : string) (s : OpState) : OpState :=
  {| py := py s; slept := slept s; errors := (errors s ++ [line])%list |}.

(** The callback of both decorators, [lambda e, attempt: logger.warning(...)]:
    the module binds no [logger]. *)
Definition on_retry (e : Exn) (attempt : Z) (s : OpState)
  : Outcome unit * OpState :=
  (Raise (mkExn NameError "name 'logger' is not defined"), s).

Definition retry_config {A : Type} : Helpers.RetryConfig OpState A :=
  {| Helpers.max_attempts := 3;
     Helpers.base_delay := 1.0;
     Helpers.max_delay := 10.0;
     Helpers.exceptions := [ConnectionError; TimeoutError];
     Helpers.on_retry := Some on_retry;
     Helpers.retry_on_result := None;
     Helpers.retry_on_exception := None |}.

(** [not s] for a string. *)
Definition falsy (s : string) : bool :=
  match s with
  | EmptyString => true
  | String _ _ => false
  end.

Definition profile_metrics : gmap string Q :=
  {[ "authenticity_score" := 0.85;
     "engagement_potential" := 0.75;
     "risk_level" := 0.15;
     "interaction_pattern" := 0.80;
     "account_age" := 0.90 ]}.

Definition following_metrics : gmap string Q :=
  {[ "following_ratio" := 0.65;
     "community_connection" := 0.80;
     "suspicious_pattern" := 0.20 ]}.

(** The body of [analyze_profile]: the [try] block and its handler, which
    logs and raises again. *)
Definition analyze_profile_body (profile_pic_url bio : string) (s : OpState)
  : Outcome (option (gmap string Q)) * OpState :=
  if falsy profile_pic_url || falsy bio then
    let e := mkExn ValueError "Profile picture URL and bio are required" in
    (Raise e, log_error ("Error analyzing profile: " ++ exn_msg e) s)
  else
    let s := sleep 0.5 s in
    (Return (Some profile_metrics), s).

(** [ProfileAnalyzer.analyze_profile] of analyzer.py, decorated. *)
Definition analyze_profile (profile_pic_url bio : string)
  (w : Helpers.World OpState)
  : Outcome (option (gmap string Q)) * Helpers.World OpState :=
  Helpers.async_retry uniform retry_config
    (analyze_profile_body profile_pic_url bio) w.

(** The body of [analyze_following_pattern]. *)
Definition analyze_following_pattern_body (following : list string)
  (s : OpState) : Outcome (option (gmap string Q)) * OpState :=
  match following with
  | [] =>
      let e := mkExn ValueError "Following list cannot be empty" in
      (Raise e, log_error ("Error analyzing following pattern: " ++ exn_msg e) s)
  | _ :: _ =>
      let s := sleep 0.5 s in
      (Return (Some following_metrics), s)
  end.

(** [ProfileAnalyzer.analyze_following_pattern], decorated. *)
Definition analyze_following_pattern (following : list string)
  (w : Helpers.World OpState)
  : Outcome (option (gmap string Q)) * Helpers.World OpState :=
  Helpers.async_retry uniform retry_config
    (analyze_following_pattern_body following) w.

End AnalyzerOps.

(** ** app/utils/instagram.py *)

Module Instagram.

(** [limit or 10]: 10 when [limit] is [None] or 0. *)
Definition limit_or_10 (limit : option Z) : Z :=
  match limit with
  | None => 10
  | Some l => if (l =? 0)%Z then 10 else l
  end.

(** [range(n)] *)
Definition range (n : Z) : list Z := Z.of_nat <$> seq 0 (Z.to_nat n).

(** One entry of the list; [date] is [datetime.now().isoformat()]. *)
Definition follower_entry (date : string) (i : Z) : gmap string string :=
  {[ "id" := "follower_" ++ pretty i;
     "username" := "user_" ++ pretty i;
     "follow_date" := date ]}.

(** The state: the lines of [self.logger.info]. *)
Definition info (line : string) (s : list string) : list string :=
  (s ++ [line])%list.

(** The body of [get_followers_list]; [now i] is the time read for
    entry [i]. *)
Definition get_followers_list_body (now : Z -> string) (account_id : string)
  (limit : option Z) (s : list string)
  : Outcome (option (list (gmap string string))) * list string :=
  let s := info ("Getting followers list for account " ++ account_id) s in
  (Return (Some ((fun i => follower_entry (now i) i) <$>
                   range (limit_or_10 limit))), s).

(** [InstagramAPI.get_followers_list], decorated with
    [retry(max_attempts=3, delay=1.0)]. *)
Definition get_followers_list (now : Z -> string) (account_id : string)
  (limit : option Z) (w : Util.World (list string))
  : Outcome (option (list (gmap string string))) * Util.World (list string) :=
  Util.retry
    {| Util.max_attempts := 3; Util.delay := 1.0; Util.backoff := 2.0;
       Util.exceptions := [Exception] |}
    (get_followers_list_body now account_id limit) w.

End Instagram.

(** ** app/ui/dashboard.py: the batch loop and the counts of the summary *)

Module Batch.

Import Workflow.

(** The state of a batch: the world the audits run in and the lines
    [st.error] has shown. *)
Record Ui : Type := mkUi {
  world : Helpers.World PyState;
  shown : list string
}.

(** [error_message] of app/ui/components.py *)
Definition error_message (title details : string) (lines : list string)
  : list string :=
  let lines := (lines ++ [("**" ++ title ++ "**")%string])%list in
  match details with
  | EmptyString => lines
  | String _ _ => (lines ++ [details])%list
  end.

(** The [for] loop of [process_followers], [results] being the list built
    so far. *)
Fixpoint process_followers_loop (workflow : WorkflowController)
  (followers : list (gmap string string)) (results : list AuditDict)
  (ui : Ui) : Outcome (list AuditDict) * Ui :=
  match followers with
  | [] => (Return results, ui)
  | follower :: rest =>
      match audit_follower workflow follower (world ui) with
      | (Return result, w) =>
          process_followers_loop workflow rest (results ++ [result])%list
            {| world := w; shown := shown ui |}
      | (Raise e, w) =>
          if issubclass (exn_class e) Exception then
            process_followers_loop workflow rest results
              {| world := w;
                 shown :=
                   error_message
                     ("Error processing " ++
                      default "Unknown" (follower !! "username"))
                     (exn_msg e) (shown ui) |}
          else (Raise e, {| world := w; shown := shown ui |})
      end
  end.

(** [process_followers] *)
Definition process_followers (workflow : WorkflowController)
  (followers : list (gmap string string)) (ui : Ui)
  : Outcome (list AuditDict) * Ui :=
  process_followers_loop workflow followers [] ui.

(** [sum(1 for r in results if r["action"] == a)] *)
Definition count_action (a : string) (results : list AuditDict) : nat :=
  length (List.filter (fun r => String.eqb (action r) a) results).

End Batch.

(** ** Conditions on the mock data *)

Module Conditions.

(** The metrics [check_engagement] scores for a username: the entry of the
    mock data, when there is one. *)
Definition listed_metrics (self : Engagement.EngagementChecker)
  (follower_data : gmap string string) : option (gmap string Q) :=
  Engagement.mock_data self !! default "Unknown" (follower_data !! "username").

Definition listed_profile (self : Profile.ProfileAnalyzer)
  (follower_data : gmap string string) : option Profile.MockProfile :=
  Profile.mock_data self !! default "Unknown" (follower_data !! "username").

(** The entry, if any, has a metric. *)
Definition scorable (entry : option (gmap string Q)) : Prop :=
  entry <> Some ∅.

(** The first key [analyze_profile] reads and does not find. *)
Definition missing_key (p : Profile.MockProfile) : option string :=
  match Profile.mock_risk_score p, Profile.mock_analysis p,
        Profile.mock_confidence p with
  | None, _, _ => Some "risk_score"
  | Some _, None, _ => Some "analysis"
  | Some _, Some _, None => Some "confidence"
  | Some _, Some _, Some _ => None
  end.

(** The entry, if any, has its three keys. *)
Definition complete (entry : option Profile.MockProfile) : Prop :=
  match entry with
  | Some p => missing_key p = None
  | None => True
  end.

(** The record can be evaluated: its metrics entry, if any, has a metric
    and its profile entry, if any, has its three keys. *)
Definition evaluable (workflow : Workflow.WorkflowController)
  (follower_data : gmap string string) : bool :=
  match listed_metrics (Workflow.engagement_checker workflow) follower_data
  with
  | Some m => negb (size m =? 0)%nat
  | None => true
  end &&
  match listed_profile (Workflow.profile_analyzer workflow) follower_data with
  | Some p => match missing_key p with None => true | Some _ => false end
  | None => true
  end.

(** The dictionaries of an uploaded list, in order. *)
Definition dictionaries (data : list Dashboard.JsonItem)
  : list (gmap string string) :=
  flat_map
    (fun item =>
       match item with
       | Dashboard.JDict follower => [follower]
       | Dashboard.JOther => []
       end)
    data.


(** The metrics entry, if any, has a metric and holds values of the unit
    interval, as the metrics are normalized. *)
Definition normalized (entry : option (gmap string Q)) : Prop :=
  match entry with
  | Some m =>
      m <> ∅ /\ forall k v, m !! k = Some v -> Spec.unit_interval v
  | None => True
  end.


(** The largest float, and the numbers within the range of floats. *)
Definition float_max : Q := 2 ^ 1024 - 2 ^ 971.

Definition in_float_range (x : Q) : Prop := - float_max <= x /\ x <= float_max.

(** A delay [time.sleep] takes: not negative, and short enough to be
    counted in nanoseconds by a signed 64-bit integer. *)
Definition sleep_limit : Q := 9000000000.

Definition sleepable (d : Q) : Prop := 0 <= d /\ d <= sleep_limit.

(** The delay of an attempt can be computed: [2 ** attempt] converts to a
    float, which it does below [2 ** 1024], and so do its product with the
    base delay, should that be an integer, and the largest delay. *)
Definition delay_in_range (attempt : Z) (base_delay max_delay : Q) : Prop :=
  (0 <= attempt < 1024)%Z /\
  in_float_range (base_delay * 2 ^ attempt) /\
  in_float_range max_delay.

(** The delays of a whole run can be computed: there is a delay after
    every attempt but the last, so [max_attempts] is 1025 at most. *)
Definition delays_in_range {S A : Type} (cfg : Helpers.RetryConfig S A)
  : Prop :=
  (Helpers.max_attempts cfg <= 1025)%Z /\
  forall attempt,
    (0 <= attempt < Helpers.max_attempts cfg - 1)%Z ->
    delay_in_range attempt (Helpers.base_delay cfg) (Helpers.max_delay cfg).

(** Every attempt of the operation fails with an error the wrapper
    retries, and the callback's own errors are caught. *)
Definition always_fails {S A : Type} (cfg : Helpers.RetryConfig S A)
  (func : S -> Outcome (option A) * S) : Prop :=
  (forall s, exists e,
     (func s).1 = Raise e /\
     isinstance e (Helpers.exceptions cfg) = true /\
     Helpers.exception_rejected cfg e = false) /\
  (forall e attempt s, Helpers.callback_contained cfg e attempt s).

(** Every attempt returns a result other than [None] that
    [retry_on_result] turns down. *)
Definition always_turned_down {S A : Type} (cfg : Helpers.RetryConfig S A)
  (func : S -> Outcome (option A) * S) : Prop :=
  forall s, exists v,
    (func s).1 = Return (Some v) /\
    Helpers.result_wants_retry cfg (Some v) = true.

(** What a run may add to the trace: at most [n] calls, at most [k] sleeps
    and [k] calls of the callback, no sleep above [max_delay]. *)
Definition effort_within {S A : Type} (cfg : Helpers.RetryConfig S A)
  (n k : nat) (t : list Helpers.Event) : Prop :=
  (length (Helpers.calls t) <= n)%nat /\
  (length (Helpers.sleeps t) <= k)%nat /\
  (length (Helpers.on_retry_calls t) <= k)%nat /\
  Forall (fun d => d <= Helpers.max_delay cfg) (Helpers.sleeps t).

End Conditions.

(** ** More concrete runs *)

Module Runs.

Import Helpers.

(** An operation that raises [TimeoutError] whenever called. *)
Definition timed_out : Exn := mkExn TimeoutError "timed out".

Definition hangs (k : nat) : Outcome (option Z) * nat :=
  (Raise timed_out, Datatypes.S k).

(** An operation that returns its call count. *)
Definition counts (k : nat) : Outcome (option Z) * nat :=
  (Return (Some (Z.of_nat k)), Datatypes.S k).

(** An operation that raises once and then returns [None]. *)
Definition gives_up (k : nat) : Outcome (option Z) * nat :=
  if (k <? 1)%nat then (Raise timed_out, Datatypes.S k)
  else (Return None, Datatypes.S k).

(** A configuration without callback whose predicates turn down every
    result and reject [ValueError]. *)
Definition picky_config (attempts : Z) : RetryConfig nat Z :=
  {| max_attempts := attempts;
     base_delay := 1.0;
     max_delay := 10.0;
     exceptions := [Exception];
     on_retry := None;
     retry_on_result := Some (fun _ => true);
     retry_on_exception :=
       Some (fun e => negb (issubclass (exn_class e) ValueError)) |}.

Definition sync_fresh : Util.World nat :=
  {| Util.user := 0%nat; Util.trace := [] |}.

Definition sync_args (attempts : Z) : Util.RetryArgs :=
  {| Util.max_attempts := attempts; Util.delay := 1.0; Util.backoff := 2.0;
     Util.exceptions := [Exception] |}.

(** A controller whose mock data list carol in full, dave with a profile
    that lacks its analysis, and erin without metrics. *)
Definition listed_controller : Workflow.WorkflowController :=
  {| Workflow.engagement_checker :=
       {| Engagement.mock_data :=
            {[ "carol" := {[ "likes" := 0.9; "comments" := 0.7 ]};
               "dave" := {[ "likes" := 0.2 ]};
               "erin" := ∅ ]} |};
     Workflow.profile_analyzer :=
       {| Profile.mock_data :=
            {[ "carol" := Profile.mkMockProfile (Some 0.1)
                            (Some "Active account") (Some 0.9);
               "dave" := Profile.mkMockProfile (Some 0.8) None (Some 0.9) ]} |}
  |}.

Definition carol : gmap string string := {[ "username" := "carol" ]}.
Definition dave : gmap string string := {[ "username" := "dave" ]}.
Definition erin : gmap string string := {[ "username" := "erin" ]}.

Definition ui0 : Batch.Ui :=
  {| Batch.world := Examples.world0; Batch.shown := [] |}.

End Runs.

(** * Properties *)

Local Open Scope list_scope.

(** ** Comparisons *)

Lemma Qleb_le x y : Qleb x y = true <-> x <= y.
Proof. apply Qle_bool_iff. Qed.

Lemma Qltb_lt x y : Qltb x y = true <-> x < y.
Proof.
  unfold Qltb. rewrite negb_true_iff, <- not_true_iff_false, Qle_bool_iff.
  split; [apply Qnot_le_lt | apply Qlt_not_le].
Qed.

Lemma Qgeb_ge x y : Qgeb x y = true <-> y <= x.
Proof. apply Qleb_le. Qed.

Lemma Qgtb_gt x y : Qgtb x y = true <-> y < x.
Proof. apply Qltb_lt. Qed.

Lemma Qleb_reflect x y : reflect (x <= y) (Qleb x y).
Proof. apply iff_reflect. symmetry. apply Qleb_le. Qed.

Lemma Qltb_reflect x y : reflect (x < y) (Qltb x y).
Proof. apply iff_reflect. symmetry. apply Qltb_lt. Qed.

(** Case analysis on every comparison of scores in the goal. *)
Ltac case_scores :=
  repeat match goal with
    | |- context [Qgeb ?x ?y] =>
        unfold Qgeb; destruct (Qleb_reflect y x)
    | |- context [Qgtb ?x ?y] =>
        unfold Qgtb; destruct (Qltb_reflect y x)
    | |- context [Qleb ?x ?y] => destruct (Qleb_reflect x y)
    | |- context [Qltb ?x ?y] => destruct (Qltb_reflect x y)
    end.

(** Membership and subsequence goals over lists of string constants. *)
Ltac solve_elem :=
  solve [ repeat first [ apply list_elem_of_here | apply list_elem_of_further ] ].
Ltac refute_elem H :=
  repeat (apply elem_of_cons in H as [H | H]; [discriminate H |]);
  apply elem_of_nil in H; exact H.
Ltac solve_sublist :=
  solve [ repeat first
            [ apply sublist_nil | apply sublist_skip | apply sublist_cons ] ].

(** ** The decision policy *)

Section Decision.

Import Workflow.

(** C1.  For every pair of scores the decision function tests its branches
    in the written order, with inclusive comparisons: KEEP when
    [e >= 0.7] and [r <= 0.3]; otherwise MONITOR when [e >= 0.5] and
    [r <= 0.5]; otherwise REMOVE when [e <= 0.3] or [r >= 0.7]; otherwise
    MONITOR.  The five sample points of the specification follow. *)
Theorem determine_action_branch_order (e r : Q) :
  let keep := 0.7 <= e /\ r <= 0.3 in
  let watch := 0.5 <= e /\ r <= 0.5 in
  let drop := e <= 0.3 \/ 0.7 <= r in
  ((keep -> _determine_action e r = KEEP) /\
   (~ keep -> watch -> _determine_action e r = MONITOR) /\
   (~ keep -> ~ watch -> drop -> _determine_action e r = REMOVE) /\
   (~ keep -> ~ watch -> ~ drop -> _determine_action e r = MONITOR)) /\
  (_determine_action 0.7 0.3 = KEEP /\
   _determine_action 0.69 0.3 = MONITOR /\
   _determine_action 0.2 0.2 = REMOVE /\
   _determine_action 0.6 0.8 = REMOVE /\
   _determine_action 0.6 0.6 = MONITOR).
Proof.
  cbv zeta. split; [| repeat split; reflexivity].
  unfold _determine_action.
  repeat split; intros; case_scores; simpl; tauto.
Qed.

(** C6.  The recommendation generator makes four checks, none excluding
    another, and appends in a fixed order: the list is a subsequence of
    the four notices in their order, and each notice is in it exactly
    when its own check holds.  For engagement 0.2, risk 0.6 and the
    analysis "User account is currently Inactive" the list is the
    low-engagement, high-risk and inactivity notices, without the privacy
    notice. *)
Theorem generate_recommendations_checks (e r : Q) (analysis : string) :
  let recs := _generate_recommendations e r analysis in
  sublist recs notices /\
  (LOW_ENGAGEMENT ∈ recs <-> e < 0.5) /\
  (HIGH_RISK ∈ recs <-> 0.5 < r) /\
  (PRIVATE_ACCOUNT ∈ recs <-> contains "private" (lower analysis) = true) /\
  (INACTIVE_ACCOUNT ∈ recs <->
     contains "inactive" (lower analysis) = true) /\
  _generate_recommendations 0.2 0.6 "User account is currently Inactive"
    = [LOW_ENGAGEMENT; HIGH_RISK; INACTIVE_ACCOUNT] /\
  _generate_recommendations 0 1 "PRIVATE, Inactive"
    = notices /\
  _generate_recommendations 0.5 0.5 "active and public" = [].
Proof.
  cbv zeta. unfold _generate_recommendations, notices.
  rewrite <- Qltb_lt, <- (Qltb_lt 0.5 r). fold (Qgtb r 0.5).
  destruct (Qltb e 0.5), (Qgtb r 0.5),
    (contains "private" (lower analysis)),
    (contains "inactive" (lower analysis));
    (split; [solve_sublist |]);
    repeat split; try reflexivity; try discriminate;
    try (intros _; solve_elem); intros H; exfalso; refute_elem H.
Qed.

End Decision.

(** ** The retry wrapper *)

Section RetryFacts.

Import Helpers.

Context {S A : Type}.
Variable uniform : Q -> Q -> S -> Q * S.
Variable cfg : RetryConfig S A.
Variable func : S -> Outcome (option A) * S.

Lemma calls_app t1 t2 : calls (t1 ++ t2) = calls t1 ++ calls t2.
Proof. apply flat_map_app. Qed.

Lemma sleeps_app t1 t2 : sleeps (t1 ++ t2) = sleeps t1 ++ sleeps t2.
Proof. apply flat_map_app. Qed.

Lemma on_retry_calls_app t1 t2 :
  on_retry_calls (t1 ++ t2) = on_retry_calls t1 ++ on_retry_calls t2.
Proof. apply flat_map_app. Qed.

(** An empty range: the loop body does not run. *)
Lemma async_retry_no_attempts (w : World S) :
  (max_attempts cfg <= 0)%Z ->
  async_retry uniform cfg func w = (Return None, w).
Proof.
  intros Hmax. unfold async_retry.
  replace (Z.to_nat (max_attempts cfg)) with 0%nat by lia.
  reflexivity.
Qed.

(** C10.  With [max_attempts = 0] the wrapper returns [None]: it raises
    nothing, and the world it leaves is the one it found, so the operation
    was not invoked. *)
Theorem async_retry_zero_attempts (w : World S) :
  max_attempts cfg = 0%Z ->
  async_retry uniform cfg func w = (Return None, w) /\
  calls (trace (async_retry uniform cfg func w).2) = calls (trace w).
Proof.
  intros Hmax.
  assert (H : async_retry uniform cfg func w = (Return None, w))
    by (apply async_retry_no_attempts; lia).
  rewrite H. split; reflexivity.
Qed.

(** The first pass through the loop when the operation raises an error
    that the [except exceptions] clause does not catch. *)
Lemma retry_loop_uncaught (n : nat) (attempt : Z) le lr (w : World S) e s1 :
  func (user w) = (Raise e, s1) ->
  isinstance e (exceptions cfg) = false ->
  retry_loop uniform cfg func (Datatypes.S n) attempt le lr w =
    (LRaise e, {| user := s1; trace := trace w ++ [EvCall attempt] |}).
Proof.
  intros Hf Hc. simpl. rewrite Hf, Hc. reflexivity.
Qed.

(** The wrapper when the first call raises an uncaught error. *)
Lemma async_retry_uncaught (w : World S) e s1 :
  (1 <= max_attempts cfg)%Z ->
  func (user w) = (Raise e, s1) ->
  isinstance e (exceptions cfg) = false ->
  async_retry uniform cfg func w =
    (Raise e, {| user := s1; trace := trace w ++ [EvCall 0] |}).
Proof.
  intros Hmax Hf Hc. unfold async_retry.
  destruct (Z.to_nat (max_attempts cfg)) as [| n] eqn:Hn; [lia |].
  rewrite (retry_loop_uncaught n 0 None None w e s1 Hf Hc). reflexivity.
Qed.

(** The wrapper when the first call returns a result that is kept. *)
Lemma async_retry_returns (w : World S) result s1 :
  (1 <= max_attempts cfg)%Z ->
  func (user w) = (Return result, s1) ->
  result_wants_retry cfg result = false ->
  async_retry uniform cfg func w =
    (Return result, {| user := s1; trace := trace w ++ [EvCall 0] |}).
Proof.
  intros Hmax Hf Hr. unfold async_retry.
  destruct (Z.to_nat (max_attempts cfg)) as [| n] eqn:Hn; [lia |].
  simpl. rewrite Hf, Hr. reflexivity.
Qed.

(** C4.  When the operation raises, on the first attempt, an error that is
    not an instance of the configured exception classes, the wrapper raises
    that error at once: the trace grows by the one call, with no sleep and
    no second call. *)
Theorem async_retry_non_retryable (w : World S) e s1 :
  (1 <= max_attempts cfg)%Z ->
  func (user w) = (Raise e, s1) ->
  isinstance e (exceptions cfg) = false ->
  let '(out, w') := async_retry uniform cfg func w in
  out = Raise e /\
  user w' = s1 /\
  trace w' = trace w ++ [EvCall 0] /\
  sleeps (trace w') = sleeps (trace w) /\
  calls (trace w') = calls (trace w) ++ [0%Z] /\
  on_retry_calls (trace w') = on_retry_calls (trace w).
Proof.
  intros Hmax Hf Hc. rewrite (async_retry_uncaught w e s1 Hmax Hf Hc). simpl.
  rewrite sleeps_app, calls_app, on_retry_calls_app. simpl.
  rewrite !app_nil_r. repeat split; reflexivity.
Qed.

Lemma call_on_retry_contained e attempt (w : World S) :
  callback_contained cfg e attempt (user w) ->
  exists w',
    call_on_retry cfg e attempt w = (None, w') /\
    sleeps (trace w') = sleeps (trace w) /\
    calls (trace w') = calls (trace w) /\
    on_retry_calls (trace w') =
      on_retry_calls (trace w) ++
      match on_retry cfg with
      | Some _ => [(e, (attempt + 1)%Z)]
      | None => []
      end.
Proof.
  unfold callback_contained, call_on_retry.
  destruct (on_retry cfg) as [cb |].
  - simpl. destruct (cb e (attempt + 1)%Z (user w)) as [[u | ce] s'];
      simpl; intros Hc.
    + eexists. split; [reflexivity |]. simpl.
      rewrite sleeps_app, calls_app, on_retry_calls_app. simpl.
      rewrite !app_nil_r. auto.
    + rewrite Hc. eexists. split; [reflexivity |]. simpl.
      rewrite !sleeps_app, !calls_app, !on_retry_calls_app. simpl.
      rewrite !app_nil_r. auto.
  - intros _. exists w. rewrite app_nil_r. auto.
Qed.

(** One pass through the loop on a retryable failure with attempts left. *)
Lemma retry_loop_backoff (n : nat) (attempt : Z) le lr (w : World S) e s' :
  retryable_failure uniform cfg func attempt (user w) e s' ->
  (attempt < max_attempts cfg - 1)%Z ->
  let jitter := (uniform 0 1 (func (user w)).2).1 in
  let delay := Qmin (base_delay cfg * 2 ^ attempt + jitter) (max_delay cfg) in
  exists w',
    retry_loop uniform cfg func (Datatypes.S n) attempt le lr w =
      retry_loop uniform cfg func n (attempt + 1) (Some e) lr w' /\
    user w' = s' /\
    last (trace w') = Some (EvSleep delay) /\
    sleeps (trace w') = sleeps (trace w) ++ [delay] /\
    calls (trace w') = calls (trace w) ++ [attempt] /\
    on_retry_calls (trace w') =
      on_retry_calls (trace w) ++
      match on_retry cfg with
      | Some _ => [(e, (attempt + 1)%Z)]
      | None => []
      end.
Proof.
  intros (Hf & Hc & Hr & Hcb & Hs') Hlt. cbv zeta in *.
  destruct (func (user w)) as [out s1] eqn:Ef. simpl in Hf. subst out.
  destruct (uniform 0 1 s1) as [jitter s2] eqn:Eu. simpl in *.
  rewrite Ef, Hc, Hr. simpl.
  apply Z.ltb_lt in Hlt. rewrite Hlt.
  unfold _calculate_delay. rewrite Eu.
  rewrite Eu in Hcb, Hs'. simpl in Hcb, Hs'.
  set (delay := Qmin (base_delay cfg * 2 ^ attempt + jitter) (max_delay cfg)).
  set (w1 := emit (EvWarning attempt delay) _).
  destruct (call_on_retry_contained e attempt w1) as (w2 & Ecb & Hsl & Hca & Hon);
    [exact Hcb |].
  rewrite Ecb. eexists. split; [reflexivity |].
  assert (Hu : user w2 = s').
  { subst s'. revert Ecb. unfold call_on_retry, after_callback.
    destruct (on_retry cfg) as [cb |]; simpl.
    - destruct (cb e (attempt + 1)%Z s2) as [[u | ce] s3]; simpl.
      + intros [= <-]. reflexivity.
      + destruct (issubclass (exn_class ce) Exception);
          intros [= <-]; reflexivity.
    - intros [= <-]. reflexivity. }
  simpl. split; [exact Hu |]. split; [apply last_snoc |].
  rewrite sleeps_app, calls_app, on_retry_calls_app, Hsl, Hca, Hon.
  subst w1. simpl.
  rewrite !sleeps_app, !calls_app, !on_retry_calls_app. simpl.
  rewrite !app_nil_r. auto.
Qed.

(** C3.  With [max_attempts = 3] and a callback, when attempts 1 and 2 fail
    with retryable errors [e1] and [e2] and attempt 3 succeeds with
    [result], the wrapper returns [result], having called the operation
    three times and the callback twice: with [(e1, 1)], then with
    [(e2, 2)]. *)
Theorem async_retry_succeeds_on_third (w : World S) cb e1 e2 sa sb result s3 :
  max_attempts cfg = 3%Z ->
  on_retry cfg = Some cb ->
  retryable_failure uniform cfg func 0 (user w) e1 sa ->
  retryable_failure uniform cfg func 1 sa e2 sb ->
  success cfg func sb result s3 ->
  let '(out, w') := async_retry uniform cfg func w in
  out = Return result /\
  user w' = s3 /\
  calls (trace w') = calls (trace w) ++ [0; 1; 2]%Z /\
  on_retry_calls (trace w') =
    on_retry_calls (trace w) ++ [(e1, 1%Z); (e2, 2%Z)] /\
  length (sleeps (trace w')) = (length (sleeps (trace w)) + 2)%nat.
Proof.
  intros Hmax Hcb H1 H2 [Hf3 Hr3]. unfold async_retry. rewrite Hmax.
  change (Z.to_nat 3) with 3%nat.
  destruct (retry_loop_backoff 2 0 None None w e1 sa H1)
    as (w1 & -> & Hu1 & _ & Hs1 & Hc1 & Ho1); [lia |].
  rewrite <- Hu1 in H2.
  destruct (retry_loop_backoff 1 (0 + 1) (Some e1) None w1 e2 sb H2)
    as (w2 & -> & Hu2 & _ & Hs2 & Hc2 & Ho2); [lia |].
  rewrite Hcb in Ho1, Ho2.
  cbn [retry_loop]. cbn [user emit]. rewrite Hu2, Hf3, Hr3.
  cbn [user set_user trace emit].
  rewrite calls_app, on_retry_calls_app, Hc2, Hc1, Ho2, Ho1. simpl.
  rewrite !app_nil_r, <- !app_assoc. simpl.
  repeat split; try reflexivity.
  enough (Hlen : length (sleeps (trace w2 ++ [EvCall 2])) =
                 (length (sleeps (trace w)) + 2)%nat) by exact Hlen.
  rewrite sleeps_app, Hs2, Hs1. simpl.
  rewrite !length_app. simpl. lia.
Qed.

End RetryFacts.

(** *** The wrapper on concrete operations *)

Section RetryRuns.

Import Helpers Examples.

Lemma async_retry_zero_attempts_witness :
  async_retry uniform_mid (analyzer_config 0) flaky fresh
    = (Return None, fresh) /\
  calls (trace (async_retry uniform_mid (analyzer_config 0) flaky fresh).2)
    = calls (trace fresh).
Proof.
  apply (async_retry_zero_attempts uniform_mid (analyzer_config 0) flaky fresh).
  reflexivity.
Defined.

Lemma async_retry_non_retryable_witness :
  let '(out, w') := async_retry uniform_mid (analyzer_config 3) invalid fresh in
  out = Raise (mkExn ValueError "Following list cannot be empty") /\
  user w' = 1%nat /\
  trace w' = trace fresh ++ [EvCall 0] /\
  sleeps (trace w') = sleeps (trace fresh) /\
  calls (trace w') = calls (trace fresh) ++ [0%Z] /\
  on_retry_calls (trace w') = on_retry_calls (trace fresh).
Proof.
  apply (async_retry_non_retryable uniform_mid (analyzer_config 3) invalid
           fresh (mkExn ValueError "Following list cannot be empty") 1%nat).
  - simpl. lia.
  - reflexivity.
  - reflexivity.
Defined.

Lemma flaky_first_failure :
  retryable_failure uniform_mid (analyzer_config 3) flaky 0 0%nat refused 1%nat.
Proof. unfold retryable_failure. simpl. repeat split; reflexivity. Defined.

Lemma flaky_second_failure :
  retryable_failure uniform_mid (analyzer_config 3) flaky 1 1%nat refused 2%nat.
Proof. unfold retryable_failure. simpl. repeat split; reflexivity. Defined.


Lemma async_retry_succeeds_on_third_witness :
  let '(out, w') := async_retry uniform_mid (analyzer_config 3) flaky fresh in
  out = Return (Some 42%Z) /\
  user w' = 3%nat /\
  calls (trace w') = calls (trace fresh) ++ [0; 1; 2]%Z /\
  on_retry_calls (trace w') =
    on_retry_calls (trace fresh) ++ [(refused, 1%Z); (refused, 2%Z)] /\
  length (sleeps (trace w')) = (length (sleeps (trace fresh)) + 2)%nat.
Proof.
  apply (async_retry_succeeds_on_third uniform_mid (analyzer_config 3) flaky
           fresh warn_callback refused refused 1%nat 2%nat (Some 42%Z) 3%nat).
  - reflexivity.
  - reflexivity.
  - exact flaky_first_failure.
  - exact flaky_second_failure.
  - split; reflexivity.
Defined.

(** The run behind the last witness, event by event: the callback's
    [NameError] is logged and dropped, and both delays are
    [1.0 * 2^attempt + 0.5]. *)
Example flaky_trace :
  trace (async_retry uniform_mid (analyzer_config 3) flaky fresh).2 =
    let name_error := mkExn NameError "name 'logger' is not defined" in
    let d0 := Qmin (1.0 * 2 ^ 0 + (0 + (1 - 0) * 0.5)) 10.0 in
    let d1 := Qmin (1.0 * 2 ^ 1 + (0 + (1 - 0) * 0.5)) 10.0 in
    [ EvCall 0; EvWarning 0 d0; EvOnRetry refused 1;
      EvCallbackError name_error; EvSleep d0;
      EvCall 1; EvWarning 1 d1; EvOnRetry refused 2;
      EvCallbackError name_error; EvSleep d1;
      EvCall 2 ].
Proof. reflexivity. Qed.

End RetryRuns.

(** ** The engagement evaluator *)

Section EngagementFacts.

Import Helpers Engagement Spec.

Lemma fold_left_Qplus (xs : list Q) (a : Q) :
  fold_left Qplus xs a == a + fold_right Qplus 0 xs.
Proof.
  revert a. induction xs as [| x xs IH]; intros a; simpl.
  - lra.
  - rewrite IH. lra.
Qed.

Lemma sum_fold_right (xs : list Q) : Py.sum xs == fold_right Qplus 0 xs.
Proof. unfold Py.sum. rewrite fold_left_Qplus. lra. Qed.

Lemma inject_nat_succ (n : nat) :
  inject_Z (Z.of_nat (Datatypes.S n)) == inject_Z (Z.of_nat n) + 1.
Proof.
  rewrite Nat2Z.inj_succ. unfold Z.succ. rewrite inject_Z_plus. reflexivity.
Qed.

Lemma inject_nat_pos (n : nat) : n <> 0%nat -> 0 < inject_Z (Z.of_nat n).
Proof.
  intros Hn. change 0 with (inject_Z 0). rewrite <- Zlt_Qlt. lia.
Qed.

Lemma total_bounds (xs : list Q) :
  Forall unit_interval xs ->
  0 <= fold_right Qplus 0 xs /\
  fold_right Qplus 0 xs <= inject_Z (Z.of_nat (length xs)).
Proof.
  induction 1 as [| x xs [Hx0 Hx1] _ [IH0 IH1]].
  - simpl. split; [lra | apply Qle_refl].
  - change (length (x :: xs)) with (Datatypes.S (length xs)).
    rewrite inject_nat_succ. simpl. split; lra.
Qed.

(** The mean of values of the unit interval is in the unit interval. *)
Lemma arithmetic_mean_unit (xs : list Q) :
  xs <> [] -> Forall unit_interval xs -> unit_interval (arithmetic_mean xs).
Proof.
  intros Hne Hall. destruct (total_bounds xs Hall) as [H0 H1].
  assert (Hlen : 0 < inject_Z (Z.of_nat (length xs))).
  { apply inject_nat_pos. destruct xs; [congruence | discriminate]. }
  unfold arithmetic_mean. split.
  - apply Qle_shift_div_l; [exact Hlen | lra].
  - apply Qle_shift_div_r; [exact Hlen | lra].
Qed.

Lemma values_length (m : gmap string Q) : length (values m) = size m.
Proof. unfold values. rewrite length_fmap. apply length_map_to_list. Qed.

Lemma values_unit (m : gmap string Q) :
  (forall k v, m !! k = Some v -> unit_interval v) ->
  Forall unit_interval (values m).
Proof.
  intros Hm. apply Forall_forall. intros v Hv.
  unfold values in Hv.
  apply list_elem_of_fmap in Hv as ([k v'] & -> & Hkv).
  apply elem_of_map_to_list in Hkv. eapply Hm, Hkv.
Qed.

(** What the division of [check_engagement] gives on a mapping with an
    entry. *)
Lemma score_division (m : gmap string Q) :
  m <> ∅ ->
  exists q,
    div (Py.sum (values m)) (inject_Z (len m)) = Return q /\
    q == arithmetic_mean (values m).
Proof.
  intros Hne. unfold div, len.
  destruct (Qeq_bool (inject_Z (Z.of_nat (size m))) 0) eqn:E.
  - apply Qeq_bool_iff in E.
    apply map_size_non_empty_iff in Hne.
    pose proof (inject_nat_pos (size m) Hne). lra.
  - eexists. split; [reflexivity |]. unfold arithmetic_mean.
    rewrite values_length, sum_fold_right. reflexivity.
Qed.

(** For a mapping of the mock data with an entry and with values of the
    unit interval, the engagement check returns at its first attempt, and
    the score is the arithmetic mean of the values, in the unit interval. *)
Lemma check_engagement_mean (self : EngagementChecker)
  (follower_data : gmap string string) (w : World PyState)
  (m : gmap string Q) :
  mock_data self !! default "Unknown" (follower_data !! "username") = Some m ->
  m <> ∅ ->
  (forall k v, m !! k = Some v -> unit_interval v) ->
  exists r w',
    check_engagement self follower_data w = (Return (Some r), w') /\
    metrics r = m /\
    score r == arithmetic_mean (values m) /\
    unit_interval (score r).
Proof.
  intros Hm Hne Hunit.
  destruct (score_division m Hne) as (q & Hq & Hmean).
  unfold check_engagement.
  erewrite async_retry_returns; [| simpl; lia | | reflexivity].
  2: { unfold check_engagement_body, uniform, randint, random. simpl.
       rewrite Hm. simpl. rewrite Hq. reflexivity. }
  eexists _, _. split; [reflexivity |]. simpl.
  split; [reflexivity |]. split; [exact Hmean |].
  destruct (arithmetic_mean_unit (values m)) as [H0 H1].
  - intros Hnil. apply Hne, map_size_empty_iff.
    rewrite <- values_length, Hnil. reflexivity.
  - apply values_unit, Hunit.
  - unfold unit_interval. rewrite Hmean. split; assumption.
Qed.

(** C2.  The empty mapping: the sum is 0, the length is 0, and the division
    raises [ZeroDivisionError].  The error is none of the decorator's
    classes, so the check raises it at its first attempt; it returns no
    score, and no score 0. *)
Theorem check_engagement_empty_mapping (self : EngagementChecker)
  (follower_data : gmap string string) (w : World PyState) :
  mock_data self !! default "Unknown" (follower_data !! "username") = Some ∅ ->
  exists w',
    check_engagement self follower_data w =
      (Raise (mkExn ZeroDivisionError "division by zero"), w') /\
    calls (trace w') = calls (trace w) ++ [0%Z] /\
    sleeps (trace w') = sleeps (trace w).
Proof.
  intros Hm. unfold check_engagement.
  erewrite async_retry_uncaught; cycle 1.
  - simpl. lia.
  - unfold check_engagement_body, uniform, randint, random. simpl.
    rewrite Hm. reflexivity.
  - reflexivity.
  - eexists. split; [reflexivity |]. simpl.
    rewrite calls_app, sleeps_app. simpl. rewrite app_nil_r. auto.
Qed.

Lemma check_engagement_empty_mapping_witness :
  exists w',
    check_engagement Examples.alice_checker Examples.alice Examples.world0 =
      (Raise (mkExn ZeroDivisionError "division by zero"), w') /\
    calls (trace w') = calls (trace Examples.world0) ++ [0%Z] /\
    sleeps (trace w') = sleeps (trace Examples.world0).
Proof.
  apply (check_engagement_empty_mapping Examples.alice_checker Examples.alice
           Examples.world0).
  reflexivity.
Defined.

(** The guard the source has and the check does not use: [safe_divide]
    gives 0 on the same operands. *)
Example safe_divide_empty :
  safe_divide (Py.sum (values ∅)) (inject_Z (len ∅)) = Return 0.
Proof. reflexivity. Qed.

(** A mapping with three metrics: the score is their mean, 1/2. *)
Example check_engagement_bob :
  exists r w',
    check_engagement Examples.bob_checker Examples.bob Examples.world0
      = (Return (Some r), w') /\
    score r == 0.5.
Proof. eexists _, _. split; [vm_compute; reflexivity | reflexivity]. Qed.

End EngagementFacts.

(** ** The risk score of app/core/analyzer.py *)

Section AnalyzerFacts.

Import Analyzer Spec.

(** The score is a fifth of the sum of the five weight-scaled terms. *)
Lemma calculate_risk_score_terms (w : Weights) (m : ProfileMetrics) :
  _calculate_risk_score w m * 5 ==
    authenticity_score m * activity w +
    engagement_potential m * content w +
    risk_level m * interaction w +
    interaction_pattern m * interaction w +
    account_age m * age w.
Proof.
  unfold _calculate_risk_score, mean, Py.sum. simpl.
  change (inject_Z 5) with 5. field.
Qed.

Lemma default_weights_total :
  activity default_weights + content default_weights +
  interaction default_weights + age default_weights == 1.
Proof. reflexivity. Qed.

(** C7.  The four weights are 0.30, 0.30, 0.20, 0.20 and sum to 1, but the
    score is not their weighted mean: with every sub-signal at 1 the
    weighted mean is 1 and [_calculate_risk_score] returns 0.24. *)
Theorem risk_score_is_not_weighted_mean :
  default_weights = mkWeights 0.3 0.3 0.2 0.2 /\
  activity default_weights + content default_weights +
  interaction default_weights + age default_weights == 1 /\
  weighted_mean default_weights 1 1 1 1 == 1 /\
  _calculate_risk_score default_weights Examples.all_ones == 0.24 /\
  ~ _calculate_risk_score default_weights Examples.all_ones ==
      weighted_mean default_weights 1 1 1 1.
Proof. repeat split; try reflexivity. intros H. discriminate H. Qed.

(** C9.  With the five fields in the unit interval the score lies between 0
    and 0.24: the sum of the weight-scaled terms is at most
    0.3 + 0.3 + 0.2 + 0.2 + 0.2 = 1.2, and the mean divides it by 5.  So the
    test [risk_score >= 0.7] of the REMOVE branch fails on it;
    the score [analyze_profile_risk] returns, that of the fixed metrics of
    [_gather_metrics], lies in the same range for every profile and fails
    the test as well. *)
Theorem risk_score_range (m : ProfileMetrics) :
  unit_metrics m ->
  let risk := _calculate_risk_score default_weights m in
  0 <= risk /\ risk <= 0.24 /\
  Qgeb risk 0.7 = false /\
  forall profile_id,
    0 <= analyze_profile_risk default_weights profile_id /\
    analyze_profile_risk default_weights profile_id <= 0.24 /\
    Qgeb (analyze_profile_risk default_weights profile_id) 0.7 = false.
Proof.
  intros ([Ha0 Ha1] & [Hb0 Hb1] & [Hc0 Hc1] & [Hd0 Hd1] & [He0 He1]).
  cbv zeta.
  pose proof (calculate_risk_score_terms default_weights m) as Hsum.
  simpl in Hsum.
  set (risk := _calculate_risk_score default_weights m) in *.
  assert (Hlo : 0 <= risk) by lra.
  assert (Hhi : risk <= 0.24) by lra.
  split; [exact Hlo |]. split; [exact Hhi |]. split.
  - apply not_true_iff_false. rewrite Qgeb_ge. lra.
  - intros profile_id. repeat split; try reflexivity; discriminate.
Qed.

Lemma risk_score_range_witness :
  let risk := _calculate_risk_score default_weights Examples.all_ones in
  0 <= risk /\ risk <= 0.24 /\
  Qgeb risk 0.7 = false /\
  forall profile_id,
    0 <= analyze_profile_risk default_weights profile_id /\
    analyze_profile_risk default_weights profile_id <= 0.24 /\
    Qgeb (analyze_profile_risk default_weights profile_id) 0.7 = false.
Proof.
  apply (risk_score_range Examples.all_ones).
  unfold unit_metrics, unit_interval. simpl.
  repeat split; discriminate.
Defined.

End AnalyzerFacts.

(** ** The pipeline and the username *)

Section PipelineFacts.

Import Helpers Workflow Spec.

(** On a record without a username the validator raises. *)
Lemma validate_username_missing (follower_data : gmap string string) :
  follower_data !! "username" = None ->
  validate_required_fields follower_data ["username"] =
    Raise (mkExn ValueError "Missing required fields: username").
Proof. intros H. unfold validate_required_fields. simpl. rewrite H. reflexivity. Qed.

(** The pipeline reads nothing of the record but the username, with
    "Unknown" in its place when it is missing. *)
Lemma audit_follower_default_username (self : WorkflowController)
  (follower_data : gmap string string) (w : World PyState) :
  follower_data !! "username" = None ->
  audit_follower self follower_data w =
  audit_follower self (<["username" := "Unknown"]> follower_data) w.
Proof.
  intros H.
  unfold audit_follower, audit_follower_try,
    Engagement.check_engagement, Engagement.check_engagement_body,
    Profile.analyze_profile, Profile.analyze_profile_body.
  rewrite H, lookup_insert_eq. reflexivity.
Qed.

(** A result the pipeline returns carries the username it settled on. *)
Lemma audit_follower_result_username (self : WorkflowController)
  (follower_data : gmap string string) (w w' : World PyState) result :
  audit_follower self follower_data w = (Return result, w') ->
  username result = default "Unknown" (follower_data !! "username").
Proof.
  unfold audit_follower, audit_follower_try.
  destruct (Engagement.check_engagement _ _ _) as [[er | e1] w1].
  2: { destruct (issubclass _ _); discriminate. }
  destruct (getattr er _ _) as [e_score | e2].
  2: { destruct (issubclass _ _); discriminate. }
  destruct (Profile.analyze_profile _ _ _) as [[pr | e3] w2].
  2: { destruct (issubclass _ _); discriminate. }
  destruct (getattr pr Profile.risk_score _) as [r_score | e4].
  2: { destruct (issubclass _ _); discriminate. }
  destruct (getattr pr Profile.analysis _) as [text | e5].
  2: { destruct (issubclass _ _); discriminate. }
  intros [= <- _]. reflexivity.
Qed.

(** Without mock data for the username, the engagement check scores the
    four metrics it draws. *)
Lemma check_engagement_unlisted (self : Engagement.EngagementChecker)
  (follower_data : gmap string string) (w : World PyState) :
  Engagement.mock_data self
    !! default "Unknown" (follower_data !! "username") = None ->
  exists r w',
    Engagement.check_engagement self follower_data w = (Return (Some r), w').
Proof.
  intros Hm.
  assert (Hbody : exists r s',
             Engagement.check_engagement_body self follower_data (user w)
               = (Return (Some r), s')).
  { unfold Engagement.check_engagement_body, uniform, randint, random. simpl.
    rewrite Hm. simpl.
    match goal with
    | |- context [Helpers.div (Py.sum (Engagement.values ?m)) _] =>
        destruct (score_division m) as (q & -> & _);
        [apply insert_non_empty |]
    end.
    eexists _, _. reflexivity. }
  destruct Hbody as (r & s' & Hbody).
  unfold Engagement.check_engagement.
  rewrite (async_retry_returns _ _ _ w (Some r) s');
    [| simpl; lia | exact Hbody | reflexivity].
  eexists _, _. reflexivity.
Qed.

(** Without mock data for the username, the profile analysis returns the
    profile it draws. *)
Lemma analyze_profile_unlisted (self : Profile.ProfileAnalyzer)
  (follower_data : gmap string string) (w : World PyState) :
  Profile.mock_data self
    !! default "Unknown" (follower_data !! "username") = None ->
  exists r w',
    Profile.analyze_profile self follower_data w = (Return (Some r), w').
Proof.
  intros Hm. unfold Profile.analyze_profile.
  erewrite async_retry_returns; cycle 1.
  - simpl. lia.
  - unfold Profile.analyze_profile_body, uniform, random. simpl.
    rewrite Hm. reflexivity.
  - reflexivity.
  - eexists _, _. reflexivity.
Qed.

(** The username is checked where a JSON file is taken in, before any
    evaluation: [process_json_data] raises on the first dictionary without
    one.  Records of a CSV file do not pass through it. *)
Lemma process_json_data_missing_username (follower : gmap string string)
  (before after : list Dashboard.JsonItem) processed :
  follower !! "username" = None ->
  Dashboard.process_json_data before = Return processed ->
  Dashboard.process_json_data (before ++ Dashboard.JDict follower :: after) =
    Raise (mkExn ValueError "Missing username in follower data").
Proof.
  intros Hu. unfold Dashboard.process_json_data.
  generalize (@nil (gmap string string)). revert processed.
  induction before as [| [d |] before IH]; intros processed acc; simpl.
  - intros _. rewrite Hu. reflexivity.
  - destruct (d !! "username"); [apply IH | discriminate].
  - apply IH.
Qed.

(** C8, as the code has it.  A record without a username is not turned
    down: the validator would raise [ValueError] on it, but the pipeline
    does not call the validator.  It evaluates the record as it evaluates
    one whose username is "Unknown"; a result it returns carries that
    username; and it does return a result when the mock data list no
    "Unknown". *)
Theorem audit_follower_missing_username (self : WorkflowController)
  (follower_data : gmap string string) (w : World PyState) :
  follower_data !! "username" = None ->
  validate_required_fields follower_data ["username"] =
    Raise (mkExn ValueError "Missing required fields: username") /\
  audit_follower self follower_data w =
    audit_follower self (<["username" := "Unknown"]> follower_data) w /\
  (forall result w',
     audit_follower self follower_data w = (Return result, w') ->
     username result = "Unknown") /\
  (Engagement.mock_data (engagement_checker self) !! "Unknown" = None ->
   Profile.mock_data (profile_analyzer self) !! "Unknown" = None ->
   exists result w',
     audit_follower self follower_data w = (Return result, w')).
Proof.
  intros H. split; [exact (validate_username_missing _ H) |].
  split; [exact (audit_follower_default_username _ _ _ H) |]. split.
  - intros result w' Hr.
    rewrite (audit_follower_result_username _ _ _ _ _ Hr), H. reflexivity.
  - intros He Hp. unfold audit_follower, audit_follower_try.
    destruct (check_engagement_unlisted (engagement_checker self)
                follower_data w) as (er & w1 & ->);
      [rewrite H; exact He |].
    destruct (analyze_profile_unlisted (profile_analyzer self)
                follower_data w1) as (pr & w2 & ->);
      [rewrite H; exact Hp |].
    simpl. eexists _, _. reflexivity.
Qed.

Lemma audit_follower_missing_username_witness :
  validate_required_fields (∅ : gmap string string) ["username"] =
    Raise (mkExn ValueError "Missing required fields: username") /\
  audit_follower Examples.bare_controller ∅ Examples.world0 =
    audit_follower Examples.bare_controller
      (<["username" := "Unknown"]> ∅) Examples.world0 /\
  (forall result w',
     audit_follower Examples.bare_controller ∅ Examples.world0
       = (Return result, w') ->
     username result = "Unknown") /\
  (Engagement.mock_data (engagement_checker Examples.bare_controller)
     !! "Unknown" = None ->
   Profile.mock_data (profile_analyzer Examples.bare_controller)
     !! "Unknown" = None ->
   exists result w',
     audit_follower Examples.bare_controller ∅ Examples.world0
       = (Return result, w')).
Proof.
  apply (audit_follower_missing_username Examples.bare_controller ∅
           Examples.world0).
  reflexivity.
Defined.

(** C8, as the specification has it, fails on the empty record: the
    pipeline raises nothing and returns a result for "Unknown", with the
    action the scores 1/2 and 1/2 give. *)
Lemma missing_username_is_audited :
  (∅ : gmap string string) !! "username" = None /\
  ~ surfaces_validation_failure Examples.bare_controller ∅ Examples.world0 /\
  exists result w',
    audit_follower Examples.bare_controller ∅ Examples.world0
      = (Return result, w') /\
    username result = "Unknown" /\
    action result = "monitor" /\
    calls (trace w') = [0; 0]%Z.
Proof.
  assert (Hrun : exists result w',
             audit_follower Examples.bare_controller ∅ Examples.world0
               = (Return result, w') /\
             username result = "Unknown" /\
             action result = "monitor" /\
             calls (trace w') = [0; 0]%Z).
  { eexists _, _. split; [vm_compute; reflexivity |].
    repeat split; reflexivity. }
  split; [reflexivity |]. split; [| exact Hrun].
  intros (e & w' & Hraise & _).
  destruct Hrun as (result & w'' & Hret & _).
  rewrite Hret in Hraise. discriminate Hraise.
Qed.

End PipelineFacts.

(** ** The retry wrapper: bounds, exhaustion and the two predicates *)

Section RetryMore.

Import Helpers Conditions.

Context {S A : Type}.
Variable uniform : Q -> Q -> S -> Q * S.
Variable cfg : RetryConfig S A.
Variable func : S -> Outcome (option A) * S.

Lemma calculate_delay_le_max attempt b m (s : S) :
  (_calculate_delay uniform attempt b m s).1 <= m.
Proof.
  unfold _calculate_delay. destruct (uniform 0 1 s) as [jitter s'].
  simpl. apply Q.le_min_r.
Qed.

(** X1.  For an attempt number from 0 to 1023, so that [2 ** attempt]
    converts to a float, a product [base_delay * 2^attempt] the floats
    hold, and a jitter that is not negative, the delay lies between
    [min(base_delay * 2^attempt, max_delay)] and [max_delay], and once
    [base_delay * 2^attempt] has reached [max_delay] it is [max_delay],
    whatever the jitter. *)
Theorem calculate_delay_bounds attempt b m (s : S) :
  (0 <= attempt < 1024)%Z ->
  in_float_range (b * 2 ^ attempt) ->
  0 <= (uniform 0 1 s).1 ->
  let delay := (_calculate_delay uniform attempt b m s).1 in
  Qmin (b * 2 ^ attempt) m <= delay /\
  delay <= m /\
  (m <= b * 2 ^ attempt -> delay == m).
Proof.
  intros _ _ Hj. cbv zeta. unfold _calculate_delay.
  destruct (uniform 0 1 s) as [jitter s']. simpl in *.
  destruct (Q.min_spec (b * 2 ^ attempt + jitter) m) as [[H1 ->] | [H1 ->]];
    destruct (Q.min_spec (b * 2 ^ attempt) m) as [[H2 ->] | [H2 ->]];
    repeat split; try lra; intros; lra.
Qed.

Lemma call_on_retry_trace e attempt (w : World S) :
  exists t,
    trace (call_on_retry cfg e attempt w).2 = trace w ++ t /\
    calls t = [] /\ sleeps t = [] /\
    (length (on_retry_calls t) <= 1)%nat.
Proof.
  unfold call_on_retry. destruct (on_retry cfg) as [cb |].
  - simpl. destruct (cb e (attempt + 1)%Z (user w)) as [[u | ce] s']; simpl.
    + exists [EvOnRetry e (attempt + 1)]. simpl. auto.
    + destruct (issubclass (exn_class ce) Exception); simpl.
      * exists [EvOnRetry e (attempt + 1); EvCallbackError ce].
        rewrite <- app_assoc. simpl. auto.
      * exists [EvOnRetry e (attempt + 1)]. simpl. auto.
  - exists []. rewrite app_nil_r. simpl. auto.
Qed.

Lemma effort_within_cons_call n k a t :
  effort_within cfg n k t -> effort_within cfg (Datatypes.S n) k (EvCall a :: t).
Proof.
  intros (Hc & Hs & Ho & Hd). unfold effort_within. simpl.
  repeat split; try lia; assumption.
Qed.

Lemma retry_loop_effort (n : nat) :
  forall (attempt : Z) le lr (w : World S),
  exists t,
    trace (retry_loop uniform cfg func n attempt le lr w).2 = trace w ++ t /\
    effort_within cfg n (Z.to_nat (max_attempts cfg - 1 - attempt)) t.
Proof.
  induction n as [| n IH]; intros attempt le lr w.
  - exists []. simpl. rewrite app_nil_r. split; [reflexivity |].
    unfold effort_within. simpl. repeat split; try lia. constructor.
  - simpl. destruct (func (user w)) as [[result | e] s1].
    + destruct (result_wants_retry cfg result).
      * destruct (attempt <? max_attempts cfg - 1)%Z eqn:Hlt.
        -- pose proof (calculate_delay_le_max attempt (base_delay cfg)
                         (max_delay cfg) s1) as Hd.
           destruct (_calculate_delay uniform attempt (base_delay cfg)
                       (max_delay cfg) s1) as [delay s2].
           simpl in Hd.
           match goal with
           | |- context [retry_loop _ _ _ n ?a ?x ?y ?w1] =>
               destruct (IH a x y w1) as (t & -> & Hc & Hs & Ho & Hf)
           end.
           simpl. apply Z.ltb_lt in Hlt.
           exists (EvCall attempt :: EvWarning attempt delay ::
                   EvSleep delay :: t).
           split; [rewrite <- !app_assoc; reflexivity |].
           unfold effort_within. simpl.
           repeat split; try lia. constructor; assumption.
        -- exists [EvCall attempt]. simpl. split; [reflexivity |].
           unfold effort_within. simpl. repeat split; try lia. constructor.
      * exists [EvCall attempt]. simpl. split; [reflexivity |].
        unfold effort_within. simpl. repeat split; try lia. constructor.
    + destruct (isinstance e (exceptions cfg)).
      2: { exists [EvCall attempt]. simpl. split; [reflexivity |].
           unfold effort_within. simpl. repeat split; try lia. constructor. }
      destruct (exception_rejected cfg e).
      { exists [EvCall attempt]. simpl. split; [reflexivity |].
        unfold effort_within. simpl. repeat split; try lia. constructor. }
      destruct (attempt <? max_attempts cfg - 1)%Z eqn:Hlt.
      2: { exists [EvCall attempt; EvAllFailed e]. simpl.
           split; [rewrite <- app_assoc; reflexivity |].
           unfold effort_within. simpl. repeat split; try lia. constructor. }
      pose proof (calculate_delay_le_max attempt (base_delay cfg)
                    (max_delay cfg) s1) as Hd.
      destruct (_calculate_delay uniform attempt (base_delay cfg)
                  (max_delay cfg) s1) as [delay s2].
      simpl in Hd. apply Z.ltb_lt in Hlt.
      match goal with
      | |- context [call_on_retry cfg e attempt ?w1] =>
          destruct (call_on_retry_trace e attempt w1)
            as (tc & Htc & Hcc & Hcs & Hco);
          destruct (call_on_retry cfg e attempt w1) as [[escaped |] w2]
      end; simpl in Htc.
      * exists (EvCall attempt :: EvWarning attempt delay :: tc).
        simpl. rewrite Htc. split; [rewrite <- !app_assoc; reflexivity |].
        unfold effort_within. simpl. rewrite Hcc, Hcs. simpl.
        repeat split; try lia. constructor.
      * match goal with
        | |- context [retry_loop _ _ _ n ?a ?x ?y ?w3] =>
            destruct (IH a x y w3) as (t & -> & Hc & Hs & Ho & Hf)
        end.
        simpl. rewrite Htc.
        exists (EvCall attempt :: EvWarning attempt delay :: tc ++
                EvSleep delay :: t).
        split; [rewrite <- !app_assoc; reflexivity |].
        unfold effort_within. simpl.
        rewrite calls_app, sleeps_app, on_retry_calls_app, Hcc, Hcs. simpl.
        rewrite length_app.
        repeat split; try lia. constructor; assumption.
Qed.





(** X2.  Whatever the operation, the callback and the predicates do, one
    run of the wrapper adds to the trace at most [max_attempts] calls of the
    operation, at most [max_attempts - 1] sleeps and as many calls of the
    callback, and no sleep longer than [max_delay]. *)
Theorem async_retry_effort (w : World S) :
  exists t,
    trace (async_retry uniform cfg func w).2 = trace w ++ t /\
    effort_within cfg (Z.to_nat (max_attempts cfg))
      (Z.to_nat (max_attempts cfg - 1)) t.
Proof.
  destruct (retry_loop_effort (Z.to_nat (max_attempts cfg)) 0 None None w)
    as (t & Ht & He).
  exists t. split.
  - unfold async_retry.
    destruct (retry_loop uniform cfg func _ 0 None None w) as [[r | e | le lr] w'];
      simpl in *; try exact Ht.
    destruct lr; [exact Ht |]. destruct le; exact Ht.
  - replace (max_attempts cfg - 1)%Z with (max_attempts cfg - 1 - 0)%Z by lia.
    exact He.
Qed.

Lemma retryable_of_always_fails attempt (s : S) :
  always_fails cfg func ->
  exists e,
    retryable_failure uniform cfg func attempt s e
      (after_callback cfg e attempt (uniform 0 1 (func s).2).2).
Proof.
  intros [Hfail Hcb]. destruct (Hfail s) as (e & He & Hi & Hr).
  exists e. unfold retryable_failure. cbv zeta. auto.
Qed.

Lemma retry_loop_exhausts (n : nat) :
  always_fails cfg func ->
  forall (attempt : Z) le lr (w : World S),
  (attempt + Z.of_nat (Datatypes.S n) = max_attempts cfg)%Z ->
  exists e s w',
    retry_loop uniform cfg func (Datatypes.S n) attempt le lr w
      = (LRaise e, w') /\
    func s = (Raise e, user w') /\
    last (trace w') = Some (EvAllFailed e) /\
    calls (trace w') =
      calls (trace w) ++ Util.attempts_from attempt (Datatypes.S n) /\
    length (sleeps (trace w')) = (length (sleeps (trace w)) + n)%nat.
Proof.
  intros Hall. induction n as [| n IH]; intros attempt le lr w Hsum.
  - destruct Hall as [Hfail _].
    destruct (Hfail (user w)) as (e & He & Hi & Hr).
    destruct (func (user w)) as [out s1] eqn:Ef. simpl in He. subst out.
    exists e, (user w), (emit (EvAllFailed e)
                           (set_user s1 (emit (EvCall attempt) w))).
    simpl. rewrite Ef, Hi, Hr.
    replace (attempt <? max_attempts cfg - 1)%Z with false
      by (symmetry; apply Z.ltb_ge; lia).
    split; [reflexivity |]. split; [reflexivity |].
    split; [apply last_snoc |].
    rewrite !calls_app, !sleeps_app. simpl. rewrite !app_nil_r.
    split; [reflexivity | lia].
  - destruct (retryable_of_always_fails attempt (user w) Hall) as (e1 & H1).
    destruct (retry_loop_backoff uniform cfg func (Datatypes.S n) attempt
                le lr w e1 _ H1) as (w1 & -> & _ & _ & Hs1 & Hc1 & _);
      [lia |].
    destruct (IH (attempt + 1)%Z (Some e1) lr w1) as
      (e & s & w' & -> & Hf & Hl & Hc & Hs); [lia |].
    exists e, s, w'. split; [reflexivity |]. split; [exact Hf |].
    split; [exact Hl |]. rewrite Hc, Hc1, Hs, Hs1, <- app_assoc, length_app.
    simpl. split; [reflexivity | lia].
Qed.

(** X3.  When every attempt fails with an error the wrapper retries,
    there is an attempt to make and [max_attempts] is 1025 at most, so that
    the delay of every attempt can be computed, the wrapper raises the
    error of the last call; it has called the operation [max_attempts]
    times, with attempt numbers 0, 1, ..., slept [max_attempts - 1] times
    and logged the failure last. *)
Theorem async_retry_exhaustion (w : World S) :
  always_fails cfg func ->
  (1 <= max_attempts cfg)%Z ->
  delays_in_range cfg ->
  exists e s w',
    async_retry uniform cfg func w = (Raise e, w') /\
    func s = (Raise e, user w') /\
    last (trace w') = Some (EvAllFailed e) /\
    calls (trace w') =
      calls (trace w) ++
      Util.attempts_from 0 (Z.to_nat (max_attempts cfg)) /\
    length (sleeps (trace w')) =
      (length (sleeps (trace w)) + (Z.to_nat (max_attempts cfg) - 1))%nat.
Proof.
  intros Hall Hmax _. unfold async_retry.
  destruct (Z.to_nat (max_attempts cfg)) as [| n] eqn:Hn; [lia |].
  destruct (retry_loop_exhausts n Hall 0 None None w) as
    (e & s & w' & -> & Hf & Hl & Hc & Hs); [lia |].
  exists e, s, w'. simpl. rewrite Nat.sub_0_r. auto.
Qed.

(** X4.  An error of a retried class that [retry_on_exception] rejects is
    raised at once, at the first attempt: one call, no sleep, no callback,
    attempts left or not. *)
Theorem async_retry_rejected (w : World S) e s1 :
  (1 <= max_attempts cfg)%Z ->
  func (user w) = (Raise e, s1) ->
  isinstance e (exceptions cfg) = true ->
  exception_rejected cfg e = true ->
  async_retry uniform cfg func w =
    (Raise e, {| user := s1; trace := trace w ++ [EvCall 0] |}).
Proof.
  intros Hmax Hf Hi Hr. unfold async_retry.
  destruct (Z.to_nat (max_attempts cfg)) as [| n] eqn:Hn; [lia |].
  simpl. rewrite Hf, Hi, Hr. reflexivity.
Qed.

Lemma retry_loop_turned_down (n : nat) (attempt : Z) le lr (w : World S) v :
  (func (user w)).1 = Return (Some v) ->
  result_wants_retry cfg (Some v) = true ->
  (attempt < max_attempts cfg - 1)%Z ->
  exists w',
    retry_loop uniform cfg func (Datatypes.S n) attempt le lr w =
      retry_loop uniform cfg func n (attempt + 1) le (Some v) w' /\
    calls (trace w') = calls (trace w) ++ [attempt] /\
    length (sleeps (trace w')) = Datatypes.S (length (sleeps (trace w))) /\
    on_retry_calls (trace w') = on_retry_calls (trace w).
Proof.
  intros Hf Hr Hlt. simpl.
  destruct (func (user w)) as [out s1]. simpl in Hf. subst out.
  rewrite Hr. apply Z.ltb_lt in Hlt. rewrite Hlt.
  destruct (_calculate_delay uniform attempt (base_delay cfg)
              (max_delay cfg) s1) as [delay s2].
  eexists. split; [reflexivity |]. simpl.
  rewrite !calls_app, !sleeps_app, !on_retry_calls_app, !length_app. simpl.
  rewrite !app_nil_r. repeat split; try reflexivity. lia.
Qed.

Lemma retry_loop_turned_down_exhausts (n : nat) :
  always_turned_down cfg func ->
  forall (attempt : Z) le lr (w : World S),
  (attempt + Z.of_nat (Datatypes.S n) = max_attempts cfg)%Z ->
  exists v s w',
    retry_loop uniform cfg func (Datatypes.S n) attempt le lr w
      = (LDone le (Some v), w') /\
    func s = (Return (Some v), user w') /\
    calls (trace w') =
      calls (trace w) ++ Util.attempts_from attempt (Datatypes.S n) /\
    length (sleeps (trace w')) = (length (sleeps (trace w)) + n)%nat /\
    on_retry_calls (trace w') = on_retry_calls (trace w).
Proof.
  intros Hall. induction n as [| n IH]; intros attempt le lr w Hsum.
  - destruct (Hall (user w)) as (v & Hv & Hr).
    destruct (func (user w)) as [out s1] eqn:Ef. simpl in Hv. subst out.
    exists v, (user w), (set_user s1 (emit (EvCall attempt) w)).
    simpl. rewrite Ef, Hr.
    replace (attempt <? max_attempts cfg - 1)%Z with false
      by (symmetry; apply Z.ltb_ge; lia).
    split; [reflexivity |]. split; [reflexivity |].
    rewrite !calls_app, !sleeps_app, !on_retry_calls_app. simpl.
    rewrite !app_nil_r. repeat split; try reflexivity. lia.
  - destruct (Hall (user w)) as (v1 & Hv1 & Hr1).
    destruct (retry_loop_turned_down (Datatypes.S n) attempt le lr w v1
                Hv1 Hr1) as (w1 & -> & Hc1 & Hs1 & Ho1); [lia |].
    destruct (IH (attempt + 1)%Z le (Some v1) w1) as
      (v & s & w' & -> & Hf & Hc & Hs & Ho); [lia |].
    exists v, s, w'. split; [reflexivity |]. split; [exact Hf |].
    rewrite Hc, Hc1, Hs, Hs1, Ho, Ho1, <- app_assoc. simpl.
    repeat split; try reflexivity. lia.
Qed.

(** X5.  When [retry_on_result] turns down every result, none of them
    [None], there is an attempt to make and [max_attempts] is 1025 at most,
    so that the delay of every attempt can be computed, the wrapper does
    not fail: after [max_attempts] calls and [max_attempts - 1] sleeps it
    returns the result of the last call, and it never calls the
    callback. *)
Theorem async_retry_turned_down (w : World S) :
  always_turned_down cfg func ->
  (1 <= max_attempts cfg)%Z ->
  delays_in_range cfg ->
  exists v s w',
    async_retry uniform cfg func w = (Return (Some v), w') /\
    func s = (Return (Some v), user w') /\
    calls (trace w') =
      calls (trace w) ++
      Util.attempts_from 0 (Z.to_nat (max_attempts cfg)) /\
    length (sleeps (trace w')) =
      (length (sleeps (trace w)) + (Z.to_nat (max_attempts cfg) - 1))%nat /\
    on_retry_calls (trace w') = on_retry_calls (trace w).
Proof.
  intros Hall Hmax _. unfold async_retry.
  destruct (Z.to_nat (max_attempts cfg)) as [| n] eqn:Hn; [lia |].
  destruct (retry_loop_turned_down_exhausts n Hall 0 None None w) as
    (v & s & w' & -> & Hf & Hc & Hs & Ho); [lia |].
  exists v, s, w'. simpl. rewrite Nat.sub_0_r. auto.
Qed.

(** X6.  With two attempts, when the first fails with a retryable error
    [e] and the second returns [None], which [retry_on_result] turns down,
    the wrapper raises [e]: the code after the loop finds no last result
    and falls back on the error of the attempt before. *)
Theorem async_retry_stale_error (w : World S) e sa sb :
  max_attempts cfg = 2%Z ->
  retryable_failure uniform cfg func 0 (user w) e sa ->
  func sa = (Return None, sb) ->
  result_wants_retry cfg None = true ->
  exists w',
    async_retry uniform cfg func w = (Raise e, w') /\
    user w' = sb /\
    calls (trace w') = calls (trace w) ++ [0; 1]%Z.
Proof.
  intros Hmax H1 Hf Hr. unfold async_retry. rewrite Hmax.
  change (Z.to_nat 2) with 2%nat.
  destruct (retry_loop_backoff uniform cfg func 1 0 None None w e sa H1)
    as (w1 & -> & Hu1 & _ & _ & Hc1 & _); [lia |].
  cbn [retry_loop]. cbn [user emit]. rewrite Hu1, Hf, Hr, Hmax. simpl.
  eexists. split; [reflexivity |]. simpl.
  rewrite calls_app, Hc1, <- app_assoc. simpl. auto.
Qed.

End RetryMore.

(** *** Runs of the wrapper for the statements above *)

Section RetryMoreRuns.

Import Helpers Conditions Examples Runs.

Lemma calculate_delay_bounds_witness :
  let delay := (_calculate_delay uniform_mid 4 1.0 10.0 0%nat).1 in
  Qmin (1.0 * 2 ^ 4) 10.0 <= delay /\
  delay <= 10.0 /\
  (10.0 <= 1.0 * 2 ^ 4 -> delay == 10.0).
Proof.
  apply (calculate_delay_bounds uniform_mid 4 1.0 10.0 0%nat).
  - lia.
  - split; vm_compute; discriminate.
  - simpl. discriminate.
Defined.

Lemma default_delays_in_range (attempt : Z) :
  (0 <= attempt < 2)%Z -> delay_in_range attempt 1.0 10.0.
Proof.
  intros Ha. assert (H : attempt = 0%Z \/ attempt = 1%Z) by lia.
  destruct H as [-> | ->]; (split; [lia |]);
    repeat split; vm_compute; discriminate.
Defined.

Lemma analyzer_delays_in_range : delays_in_range (analyzer_config 3).
Proof. split; [simpl; lia | exact default_delays_in_range]. Defined.

Lemma picky_delays_in_range : delays_in_range (picky_config 3).
Proof. split; [simpl; lia | exact default_delays_in_range]. Defined.


Lemma hangs_always_fails : always_fails (analyzer_config 3) hangs.
Proof.
  split.
  - intros s. exists timed_out. repeat split; reflexivity.
  - intros e attempt s. reflexivity.
Defined.

Lemma async_retry_exhaustion_witness :
  exists e s w',
    async_retry uniform_mid (analyzer_config 3) hangs fresh = (Raise e, w') /\
    hangs s = (Raise e, user w') /\
    last (trace w') = Some (EvAllFailed e) /\
    calls (trace w') = calls (trace fresh) ++ Util.attempts_from 0 3 /\
    length (sleeps (trace w')) = (length (sleeps (trace fresh)) + (3 - 1))%nat.
Proof.
  apply (async_retry_exhaustion uniform_mid (analyzer_config 3) hangs fresh).
  - exact hangs_always_fails.
  - simpl. lia.
  - exact analyzer_delays_in_range.
Defined.

Lemma async_retry_rejected_witness :
  async_retry uniform_mid (picky_config 3) invalid fresh =
    (Raise (mkExn ValueError "Following list cannot be empty"),
     {| user := 1%nat; trace := trace fresh ++ [EvCall 0] |}).
Proof.
  apply (async_retry_rejected uniform_mid (picky_config 3) invalid fresh).
  - simpl. lia.
  - reflexivity.
  - reflexivity.
  - reflexivity.
Defined.

Lemma counts_always_turned_down : always_turned_down (picky_config 3) counts.
Proof. intros s. exists (Z.of_nat s). split; reflexivity. Defined.

Lemma async_retry_turned_down_witness :
  exists v s w',
    async_retry uniform_mid (picky_config 3) counts fresh
      = (Return (Some v), w') /\
    counts s = (Return (Some v), user w') /\
    calls (trace w') = calls (trace fresh) ++ Util.attempts_from 0 3 /\
    length (sleeps (trace w')) =
      (length (sleeps (trace fresh)) + (3 - 1))%nat /\
    on_retry_calls (trace w') = on_retry_calls (trace fresh).
Proof.
  apply (async_retry_turned_down uniform_mid (picky_config 3) counts fresh).
  - exact counts_always_turned_down.
  - simpl. lia.
  - exact picky_delays_in_range.
Defined.

Lemma gives_up_first_failure :
  retryable_failure uniform_mid (picky_config 2) gives_up 0 0%nat
    timed_out 1%nat.
Proof. unfold retryable_failure. simpl. repeat split; reflexivity. Defined.

Lemma async_retry_stale_error_witness :
  exists w',
    async_retry uniform_mid (picky_config 2) gives_up fresh
      = (Raise timed_out, w') /\
    user w' = 2%nat /\
    calls (trace w') = calls (trace fresh) ++ [0; 1]%Z.
Proof.
  apply (async_retry_stale_error uniform_mid (picky_config 2) gives_up fresh
           timed_out 1%nat 2%nat).
  - reflexivity.
  - exact gives_up_first_failure.
  - reflexivity.
  - reflexivity.
Defined.

End RetryMoreRuns.

(** ** The synchronous [retry] *)

Section SyncFacts.

Import Util Conditions.

Context {S A : Type}.
Variable args : RetryArgs.
Variable func : S -> Outcome (option A) * S.

Lemma sync_calls_app t1 t2 : calls (t1 ++ t2) = calls t1 ++ calls t2.
Proof. apply flat_map_app. Qed.

Lemma sync_sleeps_app t1 t2 : sleeps (t1 ++ t2) = sleeps t1 ++ sleeps t2.
Proof. apply flat_map_app. Qed.

(** X7.  Without an attempt to make, the synchronous wrapper does not
    return: the loop leaves [last_exception] at [None], and raising it is a
    [TypeError].  The operation is not called. *)
Theorem retry_no_attempts (w : World S) :
  (max_attempts args <= 0)%Z ->
  retry args func w =
    (Raise (mkExn TypeError "exceptions must derive from BaseException"), w).
Proof.
  intros Hmax. unfold retry.
  replace (Z.to_nat (max_attempts args)) with 0%nat by lia. reflexivity.
Qed.

(** The delays of a geometric sequence that starts at a delay that is not
    negative, with such a factor, are not negative. *)
Lemma geometric_nonneg (b : Q) (n : nat) :
  0 <= b -> forall d, 0 <= d -> Forall (fun x => 0 <= x) (geometric d b n).
Proof.
  intros Hb. induction n as [| n IH]; intros d Hd; simpl; constructor.
  - exact Hd.
  - apply IH. apply Qmult_le_0_compat; assumption.
Qed.

Lemma sync_retry_loop_step (n : nat) (attempt : Z) (d : Q) le (w : World S)
  e s1 :
  func (user w) = (Raise e, s1) ->
  isinstance e (exceptions args) = true ->
  (attempt < max_attempts args - 1)%Z ->
  retry_loop args func (Datatypes.S n) attempt d le w =
    retry_loop args func n (attempt + 1) (d * backoff args) (Some e)
      (emit (Warning (attempt + 1))
         (emit (Sleep d) (set_user s1 (emit (Call attempt) w)))).
Proof.
  intros Hf Hi Hlt. simpl. rewrite Hf, Hi.
  apply Z.ltb_lt in Hlt. rewrite Hlt. reflexivity.
Qed.

Lemma sync_retry_loop_exhausts (n : nat) :
  (forall s, exists e,
     (func s).1 = Raise e /\ isinstance e (exceptions args) = true) ->
  forall (attempt : Z) (d : Q) le (w : World S),
  (attempt + Z.of_nat (Datatypes.S n) = max_attempts args)%Z ->
  exists e s w',
    retry_loop args func (Datatypes.S n) attempt d le w
      = (LDone (Some e), w') /\
    func s = (Raise e, user w') /\
    calls (trace w') =
      calls (trace w) ++ attempts_from attempt (Datatypes.S n) /\
    sleeps (trace w') = sleeps (trace w) ++ geometric d (backoff args) n.
Proof.
  intros Hall. induction n as [| n IH]; intros attempt d le w Hsum.
  - destruct (Hall (user w)) as (e & He & Hi).
    destruct (func (user w)) as [out s1] eqn:Ef. simpl in He. subst out.
    exists e, (user w), (set_user s1 (emit (Call attempt) w)).
    simpl. rewrite Ef, Hi.
    replace (attempt <? max_attempts args - 1)%Z with false
      by (symmetry; apply Z.ltb_ge; lia).
    split; [reflexivity |]. split; [reflexivity |].
    rewrite sync_calls_app, sync_sleeps_app. simpl. rewrite !app_nil_r.
    split; reflexivity.
  - destruct (Hall (user w)) as (e1 & He1 & Hi1).
    destruct (func (user w)) as [out s1] eqn:Ef. simpl in He1. subst out.
    rewrite (sync_retry_loop_step _ attempt d le w e1 s1 Ef Hi1) by lia.
    match goal with
    | |- context [retry_loop args func (Datatypes.S n) ?a ?d' ?x ?w1] =>
        destruct (IH a d' x w1) as (e & s & w' & -> & Hf & Hc & Hs); [lia |]
    end.
    exists e, s, w'. split; [reflexivity |]. split; [exact Hf |].
    rewrite Hc, Hs. simpl.
    rewrite !sync_calls_app, !sync_sleeps_app. simpl.
    rewrite !app_nil_r, <- !app_assoc. split; reflexivity.
Qed.

(** X8.  With a delay and a factor that are not negative, the factor a
    number the floats hold, and no delay of the sequence [delay],
    [delay * backoff], [(delay * backoff) * backoff], ... above what
    [time.sleep] takes: when every attempt fails with an error the clause
    catches, the synchronous wrapper raises the error of the last call
    after [max_attempts] calls; between the calls it has slept the
    [max_attempts - 1] delays of the sequence, each of them one that
    [time.sleep] takes. *)
Theorem retry_exhaustion (w : World S) :
  (forall s, exists e,
     (func s).1 = Raise e /\ isinstance e (exceptions args) = true) ->
  (1 <= max_attempts args)%Z ->
  0 <= delay args ->
  0 <= backoff args ->
  in_float_range (backoff args) ->
  Forall (fun d => d <= sleep_limit)
    (geometric (delay args) (backoff args)
       (Z.to_nat (max_attempts args) - 1)) ->
  exists e s w',
    retry args func w = (Raise e, w') /\
    func s = (Raise e, user w') /\
    calls (trace w') =
      calls (trace w) ++ attempts_from 0 (Z.to_nat (max_attempts args)) /\
    sleeps (trace w') =
      sleeps (trace w) ++
      geometric (delay args) (backoff args)
        (Z.to_nat (max_attempts args) - 1) /\
    Forall sleepable
      (geometric (delay args) (backoff args)
         (Z.to_nat (max_attempts args) - 1)).
Proof.
  intros Hall Hmax Hd Hb _ Hlim. unfold retry.
  destruct (Z.to_nat (max_attempts args)) as [| n] eqn:Hn; [lia |].
  destruct (sync_retry_loop_exhausts n Hall 0 (delay args) None w) as
    (e & s & w' & -> & Hf & Hc & Hs); [lia |].
  exists e, s, w'. simpl. simpl in Hlim. rewrite Nat.sub_0_r in *.
  split; [reflexivity |]. split; [exact Hf |]. split; [exact Hc |].
  split; [exact Hs |].
  pose proof (geometric_nonneg (backoff args) n Hb (delay args) Hd) as Hpos.
  rewrite Forall_lookup in *. intros i x Hx. split; eauto.
Qed.

End SyncFacts.

Section SyncRuns.

Import Util Conditions Runs.

Lemma retry_no_attempts_witness :
  retry (sync_args 0) hangs sync_fresh =
    (Raise (mkExn TypeError "exceptions must derive from BaseException"),
     sync_fresh).
Proof.
  apply (retry_no_attempts (sync_args 0) hangs sync_fresh). simpl. lia.
Defined.

Lemma hangs_always_caught (s : nat) :
  exists e,
    (hangs s).1 = Raise e /\ isinstance e (exceptions (sync_args 4)) = true.
Proof. exists timed_out. split; reflexivity. Defined.

Lemma retry_exhaustion_witness :
  exists e s w',
    retry (sync_args 4) hangs sync_fresh = (Raise e, w') /\
    hangs s = (Raise e, user w') /\
    calls (trace w') = calls (trace sync_fresh) ++ attempts_from 0 4 /\
    sleeps (trace w') =
      sleeps (trace sync_fresh) ++ geometric 1.0 2.0 (4 - 1) /\
    Forall sleepable (geometric 1.0 2.0 (4 - 1)).
Proof.
  apply (retry_exhaustion (sync_args 4) hangs sync_fresh).
  - exact hangs_always_caught.
  - simpl. lia.
  - simpl. discriminate.
  - simpl. discriminate.
  - split; vm_compute; discriminate.
  - simpl. repeat constructor; vm_compute; discriminate.
Defined.

End SyncRuns.

(** ** The pure helpers of app/utils/helpers.py *)

Section HelperFacts.

Import Helpers Util Conditions.

Lemma normalize_score_cases (score lo hi : Q) :
  lo <= hi ->
  (score < lo /\ normalize_score score lo hi == lo) \/
  (lo <= score <= hi /\ normalize_score score lo hi == score) \/
  (hi < score /\ normalize_score score lo hi == hi).
Proof.
  intros Hle. unfold normalize_score.
  pose proof (Q.min_spec hi score) as Hmin.
  pose proof (Q.max_spec lo (Qmin hi score)) as Hmax.
  set (x := Qmin hi score) in *. set (y := Qmax lo x) in *.
  clearbody x y.
  destruct Hmin as [[H1 E1] | [H1 E1]], Hmax as [[H2 E2] | [H2 E2]];
    destruct (Qlt_le_dec score lo) as [Hs | Hs];
    solve [ left; split; lra
          | right; left; repeat split; lra
          | right; right; split; lra ].
Qed.

(** X9.  With [min_val <= max_val], [normalize_score] clamps: the result
    lies between the two bounds, a score between them is returned as it is,
    a score below or above is replaced by the nearer bound, and
    normalizing twice changes nothing. *)
Theorem normalize_score_clamps (score lo hi : Q) :
  lo <= hi ->
  let r := normalize_score score lo hi in
  lo <= r /\ r <= hi /\
  (lo <= score <= hi -> r == score) /\
  (score <= lo -> r == lo) /\
  (hi <= score -> r == hi) /\
  normalize_score r lo hi == r.
Proof.
  intros Hle. cbv zeta.
  destruct (normalize_score_cases score lo hi Hle)
    as [[H E] | [[[H H'] E] | [H E]]].
  all: assert (Hr : lo <= normalize_score score lo hi <= hi)
         by (rewrite E; split; lra).
  all: destruct (normalize_score_cases (normalize_score score lo hi) lo hi Hle)
         as [[G F] | [[_ F] | [G F]]]; try lra.
  all: repeat split; try (rewrite E; lra); try (intros; rewrite E; lra);
         try exact F.
Qed.

(** X10.  On two floats, or two numbers the floats hold, [safe_divide]
    raises nothing: it returns what the division returns when the
    denominator is not zero, and 0 when it is. *)
Theorem safe_divide_total (numerator denominator : Q) :
  in_float_range numerator ->
  in_float_range denominator ->
  exists q,
    safe_divide numerator denominator = Return q /\
    (denominator == 0 -> q = 0) /\
    (~ denominator == 0 -> div numerator denominator = Return q).
Proof.
  intros _ _. unfold safe_divide, div.
  destruct (Qeq_bool denominator 0) eqn:E.
  - apply Qeq_bool_iff in E. exists 0. simpl.
    split; [reflexivity |]. split; [reflexivity | tauto].
  - apply Qeq_bool_neq in E. exists (numerator / denominator).
    split; [reflexivity |]. split; [tauto | reflexivity].
Qed.

Lemma missing_fields_nil {V : Type} (data : gmap string V)
  (required_fields : list string) :
  List.filter
    (fun field => match data !! field with None => true | Some _ => false end)
    required_fields = [] <->
  forall field, field ∈ required_fields -> is_Some (data !! field).
Proof.
  induction required_fields as [| f fs IH]; simpl.
  - split; [intros _ field H; inversion H | reflexivity].
  - destruct (data !! f) as [v |] eqn:E.
    + rewrite IH. split.
      * intros H field Hin. apply elem_of_cons in Hin as [-> | Hin];
          [rewrite E; eauto | auto].
      * intros H field Hin. apply H. right. exact Hin.
    + split; [discriminate |]. intros H.
      destruct (H f) as [v Hv]; [left |]. congruence.
Qed.

Lemma list_filter_sublist {X : Type} (p : X -> bool) (l : list X) :
  sublist (List.filter p l) l.
Proof.
  induction l as [| x l IH]; simpl; [constructor |].
  destruct (p x); [apply sublist_skip | apply sublist_cons]; exact IH.
Qed.

(** X11.  [validate_required_fields] returns exactly when every required
    field is a key of the data; otherwise it raises a [ValueError] whose
    message lists the missing fields in the order required. *)
Theorem validate_required_fields_outcome {V : Type} (data : gmap string V)
  (required_fields : list string) :
  (validate_required_fields data required_fields = Return tt <->
   forall field, field ∈ required_fields -> is_Some (data !! field)) /\
  (forall e,
     validate_required_fields data required_fields = Raise e ->
     exn_class e = ValueError /\
     exists missing,
       missing <> [] /\
       sublist missing required_fields /\
       (forall field,
          field ∈ missing <->
          field ∈ required_fields /\ data !! field = None) /\
       exn_msg e = ("Missing required fields: " ++ join ", " missing)%string).
Proof.
  unfold validate_required_fields.
  pose proof (missing_fields_nil data required_fields) as Hnil.
  set (pred := fun field : string =>
         match data !! field with None => true | Some _ => false end) in *.
  destruct (List.filter pred required_fields) as [| m ms] eqn:E.
  - split; [split; [intros _; apply Hnil; reflexivity | reflexivity] |].
    intros e H. discriminate H.
  - split.
    + split; [discriminate |]. intros H. apply Hnil in H. discriminate H.
    + intros e [= <-]. split; [reflexivity |].
      exists (m :: ms). split; [discriminate |].
      split; [rewrite <- E; apply list_filter_sublist |].
      split; [| reflexivity].
      intros field. rewrite <- E.
      rewrite list_elem_of_In, filter_In, <- list_elem_of_In.
      subst pred. simpl. destruct (data !! field); split; intros [? ?];
        split; auto; discriminate.
Qed.

End HelperFacts.

Section HelperRuns.

Import Helpers Util Conditions.

Lemma safe_divide_total_witness :
  exists q,
    safe_divide 1 0 = Return q /\
    (0 == 0 -> q = 0) /\
    (~ 0 == 0 -> div 1 0 = Return q).
Proof.
  apply (safe_divide_total 1 0); split; vm_compute; discriminate.
Defined.

Lemma normalize_score_clamps_witness :
  let r := normalize_score 1.3 0 1 in
  0 <= r /\ r <= 1 /\
  (0 <= 1.3 <= 1 -> r == 1.3) /\
  (1.3 <= 0 -> r == 0) /\
  (1 <= 1.3 -> r == 1) /\
  normalize_score r 0 1 == r.
Proof. apply (normalize_score_clamps 1.3 0 1). discriminate. Defined.

End HelperRuns.

(** ** The ingestion of an uploaded JSON file *)

Section IngestionFacts.

Import Dashboard Conditions.

Lemma process_json_loop_outcome (data : list JsonItem) :
  forall acc out,
  process_json_loop data acc = Return out <->
  out = acc ++ dictionaries data /\
  Forall (fun follower => is_Some (follower !! "username"))
    (dictionaries data).
Proof.
  induction data as [| [d |] data IH]; intros acc out; simpl.
  - rewrite app_nil_r. split.
    + intros [= <-]. split; [reflexivity | constructor].
    + intros [-> _]. reflexivity.
  - destruct (d !! "username") as [u |] eqn:E.
    + rewrite IH, <- app_assoc. simpl. split.
      * intros [-> H]. split; [reflexivity |]. constructor; [eauto | exact H].
      * intros [-> H]. split; [reflexivity |]. inversion H; assumption.
    + split; [discriminate |]. intros [_ H]. inversion H as [| ? ? [u Hu] _].
      congruence.
  - apply IH.
Qed.

(** X12.  [process_json_data] returns exactly when every dictionary of the
    list has a username, and then it returns the dictionaries in their
    order, items that are no dictionaries left out; otherwise it raises
    [ValueError] and returns no record at all. *)
Theorem process_json_data_outcome (data : list JsonItem) :
  (forall out,
     process_json_data data = Return out <->
     out = dictionaries data /\
     Forall (fun follower => is_Some (follower !! "username"))
       (dictionaries data)) /\
  (forall e,
     process_json_data data = Raise e ->
     exn_class e = ValueError /\
     exists follower,
       follower ∈ dictionaries data /\ follower !! "username" = None).
Proof.
  split.
  - intros out. unfold process_json_data.
    rewrite process_json_loop_outcome. reflexivity.
  - unfold process_json_data. generalize (@nil (gmap string string)).
    induction data as [| [d |] data IH]; intros acc e; simpl.
    + discriminate.
    + destruct (d !! "username") as [u |] eqn:E.
      * intros H. destruct (IH _ _ H) as (Hc & f & Hin & Hf).
        split; [exact Hc |]. exists f. split; [right; exact Hin | exact Hf].
      * intros [= <-]. split; [reflexivity |].
        exists d. split; [left | exact E].
    + apply IH.
Qed.

End IngestionFacts.

(** ** One evaluation, case by case *)

Section EvaluationFacts.

Import Helpers Workflow Conditions.

Lemma div_len_cases (m : gmap string Q) :
  (m = ∅ /\
   div (Py.sum (Engagement.values m)) (inject_Z (Engagement.len m))
     = Raise (mkExn ZeroDivisionError "division by zero")) \/
  (m <> ∅ /\
   div (Py.sum (Engagement.values m)) (inject_Z (Engagement.len m))
     = Return (Py.sum (Engagement.values m) / inject_Z (Engagement.len m))).
Proof.
  destruct (decide (size m = 0%nat)) as [H0 | Hn].
  - left. apply map_size_empty_iff in H0. subst m. split; reflexivity.
  - right. split; [apply map_size_non_empty_iff, Hn |].
    unfold div, Engagement.len.
    destruct (Qeq_bool (inject_Z (Z.of_nat (size m))) 0) eqn:E;
      [| reflexivity].
    apply Qeq_bool_iff in E. pose proof (inject_nat_pos (size m) Hn). lra.
Qed.

Lemma check_engagement_outcome (self : Engagement.EngagementChecker)
  (follower_data : gmap string string) (w : World PyState) :
  let entry := listed_metrics self follower_data in
  (entry = Some ∅ /\
   exists s',
     Engagement.check_engagement self follower_data w =
       (Raise (mkExn ZeroDivisionError "division by zero"),
        {| user := s'; trace := trace w ++ [EvCall 0] |}) /\
     audit_log s' = audit_log (user w)) \/
  (entry <> Some ∅ /\
   exists r s',
     Engagement.check_engagement self follower_data w =
       (Return (Some r), {| user := s'; trace := trace w ++ [EvCall 0] |}) /\
     audit_log s' = audit_log (user w) /\
     forall m, entry = Some m ->
       Engagement.score r =
         Py.sum (Engagement.values m) / inject_Z (Engagement.len m) /\
       Engagement.metrics r = m).
Proof.
  cbv zeta. unfold listed_metrics, Engagement.check_engagement.
  destruct (Engagement.mock_data self
              !! default "Unknown" (follower_data !! "username"))
    as [m |] eqn:Em.
  - destruct (div_len_cases m) as [[-> Hd] | [Hne Hd]].
    + left. split; [reflexivity |].
      erewrite async_retry_uncaught; cycle 1.
      * simpl. lia.
      * unfold Engagement.check_engagement_body, uniform, randint, random.
        simpl. rewrite Em. reflexivity.
      * reflexivity.
      * eexists. split; reflexivity.
    + right. split; [congruence |].
      erewrite async_retry_returns; cycle 1.
      * simpl. lia.
      * unfold Engagement.check_engagement_body, uniform, randint, random.
        simpl. rewrite Em. simpl. rewrite Hd. reflexivity.
      * reflexivity.
      * eexists _, _. split; [reflexivity |]. split; [reflexivity |].
        intros m' [= <-]. split; reflexivity.
  - right. split; [discriminate |].
    assert (Hbody : exists r s',
               Engagement.check_engagement_body self follower_data (user w)
                 = (Return (Some r), s') /\
               audit_log s' = audit_log (user w)).
    { unfold Engagement.check_engagement_body, uniform, randint, random.
      simpl. rewrite Em. simpl.
      match goal with
      | |- context [div (Py.sum (Engagement.values ?m)) _] =>
          destruct (div_len_cases m) as [[He _] | [_ ->]];
          [exfalso; revert He; apply insert_non_empty |]
      end.
      eexists _, _. split; reflexivity. }
    destruct Hbody as (r & s' & Hbody & Hlog).
    rewrite (async_retry_returns _ _ _ w (Some r) s');
      [| simpl; lia | exact Hbody | reflexivity].
    exists r, s'. split; [reflexivity |]. split; [exact Hlog |].
    intros m H. discriminate H.
Qed.

Lemma analyze_profile_outcome (self : Profile.ProfileAnalyzer)
  (follower_data : gmap string string) (w : World PyState) :
  let entry := listed_profile self follower_data in
  (exists p k,
     entry = Some p /\ missing_key p = Some k /\
     exists s',
       Profile.analyze_profile self follower_data w =
         (Raise (mkExn KeyError ("'" ++ k ++ "'")%string),
          {| user := s'; trace := trace w ++ [EvCall 0] |}) /\
       audit_log s' = audit_log (user w)) \/
  (complete entry /\
   exists r s',
     Profile.analyze_profile self follower_data w =
       (Return (Some r), {| user := s'; trace := trace w ++ [EvCall 0] |}) /\
     audit_log s' = audit_log (user w) /\
     forall p, entry = Some p ->
       Profile.mock_risk_score p = Some (Profile.risk_score r) /\
       Profile.mock_analysis p = Some (Profile.analysis r) /\
       Profile.mock_confidence p = Some (Profile.confidence r)).
Proof.
  cbv zeta. unfold listed_profile, Profile.analyze_profile.
  destruct (Profile.mock_data self
              !! default "Unknown" (follower_data !! "username"))
    as [p |] eqn:Ep.
  - destruct p as [[risk |] [text |] [conf |]].
    8: { left. eexists _, _. split; [reflexivity |]. split; [reflexivity |].
         erewrite async_retry_uncaught; cycle 1.
         - simpl. lia.
         - unfold Profile.analyze_profile_body, uniform, random. simpl.
           rewrite Ep. reflexivity.
         - reflexivity.
         - eexists. split; reflexivity. }
    1: { right. split; [reflexivity |].
         erewrite async_retry_returns; cycle 1.
         - simpl. lia.
         - unfold Profile.analyze_profile_body, uniform, random. simpl.
           rewrite Ep. reflexivity.
         - reflexivity.
         - eexists _, _. split; [reflexivity |]. split; [reflexivity |].
           intros p' [= <-]. repeat split; reflexivity. }
    all: left; eexists _, _; (split; [reflexivity |]);
      (split; [reflexivity |]);
      (erewrite async_retry_uncaught; cycle 1);
      [ simpl; lia
      | unfold Profile.analyze_profile_body, uniform, random; simpl;
        rewrite Ep; reflexivity
      | reflexivity
      | eexists; split; reflexivity ].
  - right. split; [exact I |].
    erewrite async_retry_returns; cycle 1.
    + simpl. lia.
    + unfold Profile.analyze_profile_body, uniform, random. simpl.
      rewrite Ep. reflexivity.
    + reflexivity.
    + eexists _, _. split; [reflexivity |]. split; [reflexivity |].
      intros p H. discriminate H.
Qed.

(** Every run of [audit_follower] is one of three. *)
Lemma audit_follower_cases (self : WorkflowController)
  (follower_data : gmap string string) (w : World PyState) :
  let name := default "Unknown" (follower_data !! "username") in
  let metrics := listed_metrics (engagement_checker self) follower_data in
  let profile := listed_profile (profile_analyzer self) follower_data in
  (metrics = Some ∅ /\
   exists w',
     audit_follower self follower_data w =
       (Raise (mkExn ZeroDivisionError "division by zero"), w') /\
     audit_log (user w') =
       audit_log (user w) ++ [LogError name "division by zero"] /\
     trace w' = trace w ++ [EvCall 0]) \/
  (metrics <> Some ∅ /\
   exists p k,
     profile = Some p /\ missing_key p = Some k /\
     exists w',
       audit_follower self follower_data w =
         (Raise (mkExn KeyError ("'" ++ k ++ "'")%string), w') /\
       audit_log (user w') =
         audit_log (user w) ++ [LogError name ("'" ++ k ++ "'")%string] /\
       trace w' = trace w ++ [EvCall 0; EvCall 0]) \/
  (metrics <> Some ∅ /\ complete profile /\
   exists er pr w',
     let e_score := Engagement.score er in
     let r_score := Profile.risk_score pr in
     let act := action_value (_determine_action e_score r_score) in
     audit_follower self follower_data w =
       (Return {| username := name;
                  engagement_score := e_score;
                  risk_score := r_score;
                  action := act;
                  reason := Profile.analysis pr;
                  recommendations :=
                    _generate_recommendations e_score r_score
                      (Profile.analysis pr) |}, w') /\
     audit_log (user w') =
       audit_log (user w) ++
       [LogAudit name e_score r_score act (Profile.analysis pr)] /\
     trace w' = trace w ++ [EvCall 0; EvCall 0] /\
     (forall m, metrics = Some m ->
        e_score = Py.sum (Engagement.values m) / inject_Z (Engagement.len m)) /\
     (forall p, profile = Some p ->
        Profile.mock_risk_score p = Some r_score /\
        Profile.mock_analysis p = Some (Profile.analysis pr))).
Proof.
  cbv zeta. unfold audit_follower, audit_follower_try.
  destruct (check_engagement_outcome (engagement_checker self) follower_data w)
    as [[He (s1 & -> & Hl1)] | [He (er & s1 & -> & Hl1 & Hm)]].
  - left. split; [exact He |]. cbv beta iota.
    change (issubclass (exn_class
              (mkExn ZeroDivisionError "division by zero")) Exception)
      with true. cbv beta iota.
    eexists. split; [reflexivity |]. simpl. rewrite Hl1. auto.
  - right. unfold getattr at 1. cbv beta iota.
    destruct (analyze_profile_outcome (profile_analyzer self) follower_data
                {| user := s1; trace := trace w ++ [EvCall 0] |})
      as [(p & k & Hp & Hk & s2 & -> & Hl2)
         | [Hc (pr & s2 & -> & Hl2 & Hpr)]].
    + left. split; [exact He |]. exists p, k.
      split; [exact Hp |]. split; [exact Hk |]. cbv beta iota.
      change (issubclass (exn_class (mkExn KeyError ("'" ++ k ++ "'")%string))
                Exception) with true. cbv beta iota.
      eexists. split; [reflexivity |]. simpl in *.
      rewrite Hl2, Hl1, <- app_assoc. auto.
    + right. split; [exact He |]. split; [exact Hc |].
      exists er, pr. unfold getattr. cbv beta iota.
      eexists. split; [reflexivity |]. simpl in *.
      rewrite Hl2, Hl1, <- app_assoc. repeat split; try reflexivity.
      * intros m H. apply (Hm m H).
      * apply (Hpr p H).
      * apply (Hpr p H).
Qed.

Lemma evaluable_true_iff (self : WorkflowController)
  (follower_data : gmap string string) :
  evaluable self follower_data = true <->
  listed_metrics (engagement_checker self) follower_data <> Some ∅ /\
  complete (listed_profile (profile_analyzer self) follower_data).
Proof.
  unfold evaluable, complete. rewrite andb_true_iff.
  destruct (listed_metrics _ _) as [m |], (listed_profile _ _) as [p |].
  all: try destruct (missing_key p).
  all: try rewrite negb_true_iff, Nat.eqb_neq, map_size_non_empty_iff.
  all: split; intros [H1 H2]; split; try congruence; try reflexivity;
         try exact I.
  all: intros ->; apply H1; reflexivity.
Qed.


(** X13.  The two failures the mock data bring about.  A metrics entry
    without a metric: the engagement check divides by zero, and
    [audit_follower] raises [ZeroDivisionError] after that one call,
    without calling the profile analysis.  A metrics entry that is fine
    (none, or one with metrics of the unit interval) and a profile entry
    that lacks one of its three keys: [audit_follower] raises the
    [KeyError] of the first key the profile lacks, after one call of each
    evaluator. *)
Theorem audit_follower_failures (self : WorkflowController)
  (follower_data : gmap string string) (w : World PyState) :
  let metrics := listed_metrics (engagement_checker self) follower_data in
  let profile := listed_profile (profile_analyzer self) follower_data in
  (metrics = Some ∅ ->
   exists w',
     audit_follower self follower_data w =
       (Raise (mkExn ZeroDivisionError "division by zero"), w') /\
     calls (trace w') = calls (trace w) ++ [0]%Z) /\
  (normalized metrics ->
   forall p k,
     profile = Some p ->
     missing_key p = Some k ->
     exists w',
       audit_follower self follower_data w =
         (Raise (mkExn KeyError ("'" ++ k ++ "'")%string), w') /\
       calls (trace w') = calls (trace w) ++ [0; 0]%Z).
Proof.
  cbv zeta.
  destruct (audit_follower_cases self follower_data w)
    as [(Hm & w1 & Hr & _ & Ht)
       | [(Hm & p' & k' & Hp & Hk & w1 & Hr & _ & Ht)
         | (Hm & Hc & _)]].
  - split.
    + intros _. exists w1. split; [exact Hr |].
      rewrite Ht, calls_app. reflexivity.
    + intros Hn. rewrite Hm in Hn. destruct Hn as [Hn _]. contradiction.
  - split.
    + intros H. contradiction.
    + intros _ p k Ep Ek. rewrite Hp in Ep. injection Ep as <-.
      rewrite Hk in Ek. injection Ek as <-.
      exists w1. split; [exact Hr |]. rewrite Ht, calls_app. reflexivity.
  - split.
    + intros H. contradiction.
    + intros _ p k Ep Ek. unfold complete in Hc. rewrite Ep in Hc.
      congruence.
Qed.


(** X15.  For a username listed in both mock files, with metrics of the
    unit interval, one at least, and with a full profile, the result of
    [audit_follower] is the same in every state, whatever the random
    draws: the engagement score is in the unit interval, the risk score
    and the reason are the listed ones. *)
Theorem audit_follower_listed (self : WorkflowController)
  (follower_data : gmap string string) m p :
  listed_metrics (engagement_checker self) follower_data = Some m ->
  m <> ∅ ->
  (forall k v, m !! k = Some v -> Spec.unit_interval v) ->
  listed_profile (profile_analyzer self) follower_data = Some p ->
  missing_key p = None ->
  exists result,
    (forall w, (audit_follower self follower_data w).1 = Return result) /\
    username result = default "Unknown" (follower_data !! "username") /\
    Spec.unit_interval (engagement_score result) /\
    Profile.mock_risk_score p = Some (risk_score result) /\
    Profile.mock_analysis p = Some (reason result).
Proof.
  intros Hm Hne Hunit Hp Hk.
  destruct p as [[risk |] [text |] [conf |]]; try discriminate Hk.
  set (e_score := Py.sum (Engagement.values m) / inject_Z (Engagement.len m)).
  exists {| username := default "Unknown" (follower_data !! "username");
            engagement_score := e_score;
            risk_score := risk;
            action := action_value (_determine_action e_score risk);
            reason := text;
            recommendations := _generate_recommendations e_score risk text |}.
  split.
  - intros w.
    destruct (audit_follower_cases self follower_data w)
      as [(Hm' & _)
         | [(_ & p' & k & Hp' & Hk' & _)
           | (_ & _ & er & pr & w1 & Hr & _ & _ & Hes & Hps)]].
    + rewrite Hm in Hm'. injection Hm' as ->. contradiction.
    + rewrite Hp in Hp'. injection Hp' as <-. discriminate Hk'.
    + cbv zeta in Hr, Hes, Hps. rewrite Hr. simpl.
      destruct (Hps _ Hp) as [Hrisk Htext]. simpl in Hrisk, Htext.
      injection Hrisk as <-. injection Htext as <-.
      rewrite (Hes m Hm). reflexivity.
  - simpl. split; [reflexivity |]. split; [| split; reflexivity].
    destruct (score_division m Hne) as (q & Hq & Hmean).
    destruct (div_len_cases m) as [[-> _] | [_ Hd]]; [contradiction |].
    rewrite Hd in Hq. injection Hq as <-.
    destruct (arithmetic_mean_unit (Engagement.values m)) as [H0 H1].
    + intros Hnil. apply Hne, map_size_empty_iff.
      rewrite <- values_length, Hnil. reflexivity.
    + apply values_unit, Hunit.
    + unfold Spec.unit_interval. fold e_score in Hmean. rewrite Hmean.
      split; assumption.
Qed.

End EvaluationFacts.

Section EvaluationRuns.

Import Helpers Workflow Conditions Runs.

Lemma carol_metrics_unit (k : string) (v : Q) :
  ({[ "likes" := 0.9; "comments" := 0.7 ]} : gmap string Q) !! k = Some v ->
  Spec.unit_interval v.
Proof.
  intros H. apply lookup_insert_Some in H as [[_ <-] | [_ H]].
  - split; discriminate.
  - apply lookup_singleton_Some in H as [_ <-]. split; discriminate.
Defined.

Lemma audit_follower_listed_witness :
  exists result,
    (forall w, (audit_follower listed_controller carol w).1 = Return result) /\
    username result = default "Unknown" (carol !! "username") /\
    Spec.unit_interval (engagement_score result) /\
    Profile.mock_risk_score
      (Profile.mkMockProfile (Some 0.1) (Some "Active account") (Some 0.9))
      = Some (risk_score result) /\
    Profile.mock_analysis
      (Profile.mkMockProfile (Some 0.1) (Some "Active account") (Some 0.9))
      = Some (reason result).
Proof.
  apply (audit_follower_listed listed_controller carol
           {[ "likes" := 0.9; "comments" := 0.7 ]}
           (Profile.mkMockProfile (Some 0.1) (Some "Active account")
              (Some 0.9))).
  - reflexivity.
  - apply insert_non_empty.
  - exact carol_metrics_unit.
  - reflexivity.
  - reflexivity.
Defined.

(** carol on a concrete state: engagement 0.8, risk 0.1, kept. *)
Example audit_carol :
  exists result w',
    audit_follower listed_controller carol Examples.world0
      = (Return result, w') /\
    engagement_score result == 0.8 /\
    action result = "keep" /\
    recommendations result = [].
Proof.
  eexists _, _. split; [vm_compute; reflexivity |].
  repeat split; reflexivity.
Qed.

End EvaluationRuns.

(** ** The batch loop *)

Section BatchFacts.

Import Helpers Workflow Conditions Batch.

Lemma error_message_lines (title details : string) (lines : list string) :
  details <> "" ->
  length (error_message title details lines) = (length lines + 2)%nat.
Proof.
  intros Hd. unfold error_message. destruct details; [congruence |].
  rewrite !length_app. simpl. lia.
Qed.

(** A follower whose evaluation returns can be evaluated. *)
Lemma returns_evaluable (workflow : WorkflowController)
  (follower : gmap string string) (w : World PyState) :
  (forall w, exists result w',
     audit_follower workflow follower w = (Return result, w')) ->
  evaluable workflow follower = true.
Proof.
  intros Hret. destruct (Hret w) as (r & w' & Hr).
  apply evaluable_true_iff.
  destruct (audit_follower_cases workflow follower w)
    as [(_ & w1 & Hr1 & _)
       | [(_ & p & k & _ & _ & w1 & Hr1 & _)
         | (Hm & Hc & _)]]; [congruence | congruence | tauto].
Qed.

Lemma list_filter_implies {X : Type} (p q : X -> bool) (l : list X) :
  (forall x, p x = true -> q x = true) ->
  sublist (List.filter p l) (List.filter q l).
Proof.
  intros Hpq. induction l as [| x l IH]; simpl; [apply sublist_nil |].
  destruct (p x) eqn:Ep.
  - rewrite (Hpq x Ep). apply sublist_skip, IH.
  - destruct (q x); [apply sublist_cons |]; exact IH.
Qed.

Lemma process_followers_loop_isolation (workflow : WorkflowController)
  (followers : list (gmap string string)) :
  forall (acc : list AuditDict) (ui : Ui),
  exists results ui',
    process_followers_loop workflow followers acc ui
      = (Return (acc ++ results), ui') /\
    username <$> results =
      (fun follower => default "Unknown" (follower !! "username")) <$>
      List.filter (evaluable workflow) followers /\
    Forall (fun r => exists a, action r = action_value a) results /\
    (length results <= length followers)%nat /\
    (length (shown ui') + 2 * length results =
     length (shown ui) + 2 * length followers)%nat /\
    length (audit_log (user (world ui'))) =
      (length (audit_log (user (world ui))) + length followers)%nat.
Proof.
  induction followers as [| follower rest IH]; intros acc ui.
  - exists [], ui. simpl. rewrite app_nil_r.
    repeat split; try reflexivity; try lia. constructor.
  - cbn [process_followers_loop].
    destruct (audit_follower_cases workflow follower (world ui))
      as [(Hm & w1 & -> & Hl & _)
         | [(Hm & p & k & Hp & Hk & w1 & -> & Hl & _)
           | (Hm & Hc & er & pr & w1 & Hr & Hl & _)]].
    + change (issubclass (exn_class
                (mkExn ZeroDivisionError "division by zero")) Exception)
        with true. cbv beta iota.
      match goal with
      | |- context [process_followers_loop workflow rest acc ?ui1] =>
          destruct (IH acc ui1) as (rs & ui' & -> & Hu & Ha & Hn & Hs & Hlog)
      end.
      exists rs, ui'. split; [reflexivity |].
      assert (He : evaluable workflow follower = false).
      { apply not_true_iff_false. rewrite evaluable_true_iff. tauto. }
      cbn [shown world user] in Hs, Hlog. cbn [List.filter length].
      rewrite He. split; [exact Hu |]. split; [exact Ha |].
      rewrite error_message_lines in Hs by (simpl; discriminate).
      rewrite Hl, length_app in Hlog. simpl in Hlog. simpl length.
      repeat split; lia.
    + change (issubclass (exn_class
                (mkExn KeyError ("'" ++ k ++ "'")%string)) Exception)
        with true. cbv beta iota.
      match goal with
      | |- context [process_followers_loop workflow rest acc ?ui1] =>
          destruct (IH acc ui1) as (rs & ui' & -> & Hu & Ha & Hn & Hs & Hlog)
      end.
      exists rs, ui'. split; [reflexivity |].
      assert (He : evaluable workflow follower = false).
      { apply not_true_iff_false. rewrite evaluable_true_iff.
        unfold complete. rewrite Hp. intros [_ H]. congruence. }
      cbn [shown world user] in Hs, Hlog. cbn [List.filter length].
      rewrite He. split; [exact Hu |]. split; [exact Ha |].
      rewrite error_message_lines in Hs by (simpl; discriminate).
      rewrite Hl, length_app in Hlog. simpl in Hlog. simpl length.
      repeat split; lia.
    + cbv zeta in Hr, Hl. rewrite Hr.
      match goal with
      | |- context [process_followers_loop workflow rest (acc ++ [?r]) ?ui1] =>
          destruct (IH (acc ++ [r]) ui1)
            as (rs & ui' & -> & Hu & Ha & Hn & Hs & Hlog);
          exists (r :: rs), ui'
      end.
      split; [rewrite <- app_assoc; reflexivity |].
      assert (He : evaluable workflow follower = true)
        by (apply evaluable_true_iff; tauto).
      cbn [shown world user] in Hs, Hlog. cbn [List.filter].
      rewrite He. rewrite !fmap_cons, Hu.
      split; [reflexivity |].
      split; [constructor; [eexists; reflexivity | exact Ha] |].
      rewrite Hl, length_app in Hlog. simpl in Hlog. simpl length.
      repeat split; lia.
Qed.

(** X16.  [process_followers] goes through the whole batch and returns:
    a follower whose evaluation fails costs its own result and nothing
    else.  The results are results of followers of the batch, in their
    order; every follower whose evaluation returns, whatever the state, has
    its result among them; and every follower without a result leaves two
    error lines on the page. *)
Theorem process_followers_isolation (workflow : WorkflowController)
  (followers : list (gmap string string)) (ui : Ui) :
  let name follower := default "Unknown" (follower !! "username") in
  exists results ui',
    process_followers workflow followers ui = (Return results, ui') /\
    sublist (username <$> results) (name <$> followers) /\
    (forall returns : gmap string string -> bool,
       (forall follower,
          returns follower = true ->
          forall w, exists result w',
            audit_follower workflow follower w = (Return result, w')) ->
       sublist (name <$> List.filter returns followers)
         (username <$> results)) /\
    length (shown ui') =
      (length (shown ui) + 2 * (length followers - length results))%nat.
Proof.
  cbv zeta.
  destruct (process_followers_loop_isolation workflow followers [] ui)
    as (rs & ui' & H & Hu & _ & Hn & Hs & _).
  exists rs, ui'. split; [exact H |]. rewrite Hu.
  split; [apply fmap_sublist, list_filter_sublist |].
  split; [| lia].
  intros returns Hret. apply fmap_sublist, list_filter_implies.
  intros follower Hf. apply (returns_evaluable _ _ (world ui)).
  apply Hret, Hf.
Qed.

Lemma count_actions (results : list AuditDict) :
  Forall (fun r => exists a, action r = action_value a) results ->
  (count_action "keep" results + count_action "remove" results +
   count_action "monitor" results = length results)%nat.
Proof.
  unfold count_action.
  induction 1 as [| r rs [a Ha] _ IH]; simpl; [reflexivity |].
  rewrite Ha. destruct a; simpl; lia.
Qed.

(** X17.  The counts of the summary: each result of a batch is kept,
    removed or monitored, so the keep and remove counts the dashboard shows
    add up to the total less the monitored followers, which it does not
    show. *)
Theorem summary_counts (workflow : WorkflowController)
  (followers : list (gmap string string)) (ui : Ui) :
  exists results ui',
    process_followers workflow followers ui = (Return results, ui') /\
    (count_action "keep" results + count_action "remove" results +
     count_action "monitor" results = length results)%nat /\
    (length results <= length followers)%nat.
Proof.
  destruct (process_followers_loop_isolation workflow followers [] ui)
    as (rs & ui' & H & _ & Ha & Hn & _).
  exists rs, ui'. split; [exact H |].
  split; [apply count_actions, Ha | exact Hn].
Qed.

(** A batch of three: carol is kept, dave and erin fail and leave two
    lines each. *)
Example process_three :
  exists results ui',
    process_followers Runs.listed_controller
      [Runs.erin; Runs.carol; Runs.dave] Runs.ui0 = (Return results, ui') /\
    username <$> results = ["carol"] /\
    shown ui' =
      [ "**Error processing erin**"; "division by zero";
        "**Error processing dave**"; "'analysis'" ].
Proof.
  eexists _, _. split; [vm_compute; reflexivity |]. split; reflexivity.
Qed.

End BatchFacts.

(** ** The analyses of app/core/analyzer.py *)

Section AnalyzerOpsFacts.

Import Helpers AnalyzerOps Conditions.

(** X18.  The two decorated analyses check their input before anything
    else.  On an empty picture URL or bio, or an empty following list, they
    log the error and raise [ValueError], which the decorator does not
    retry: one call, no callback, no backoff.  Otherwise they return their
    metrics after the one half-second sleep of the operation. *)
Theorem analyses_validate_input (profile_pic_url bio : string)
  (following : list string) (w : World OpState) :
  analyze_profile profile_pic_url bio w =
    (if falsy profile_pic_url || falsy bio
     then
       (Raise (mkExn ValueError "Profile picture URL and bio are required"),
        {| user :=
             log_error
               "Error analyzing profile: Profile picture URL and bio are required"
               (user w);
           trace := trace w ++ [EvCall 0] |})
     else
       (Return (Some profile_metrics),
        {| user := sleep 0.5 (user w); trace := trace w ++ [EvCall 0] |})) /\
  analyze_following_pattern following w =
    (match following with
     | [] =>
         (Raise (mkExn ValueError "Following list cannot be empty"),
          {| user :=
               log_error
                 "Error analyzing following pattern: Following list cannot be empty"
                 (user w);
             trace := trace w ++ [EvCall 0] |})
     | _ :: _ =>
         (Return (Some following_metrics),
          {| user := sleep 0.5 (user w); trace := trace w ++ [EvCall 0] |})
     end).
Proof.
  split.
  - unfold analyze_profile.
    destruct (falsy profile_pic_url || falsy bio) eqn:E.
    + erewrite async_retry_uncaught; cycle 1.
      * simpl. lia.
      * unfold analyze_profile_body. rewrite E. reflexivity.
      * reflexivity.
      * reflexivity.
    + erewrite async_retry_returns; cycle 1.
      * simpl. lia.
      * unfold analyze_profile_body. rewrite E. reflexivity.
      * reflexivity.
      * reflexivity.
  - unfold analyze_following_pattern. destruct following as [| f fs].
    + erewrite async_retry_uncaught; cycle 1.
      * simpl. lia.
      * reflexivity.
      * reflexivity.
      * reflexivity.
    + erewrite async_retry_returns; cycle 1.
      * simpl. lia.
      * reflexivity.
      * reflexivity.
      * reflexivity.
Qed.




End AnalyzerOpsFacts.

(** ** The followers list of app/utils/instagram.py *)

Section InstagramFacts.

Import Instagram Conditions.

Lemma range_lookup (n : Z) (i : nat) :
  (i < Z.to_nat n)%nat -> range n !! i = Some (Z.of_nat i).
Proof.
  intros Hi. unfold range. rewrite list_lookup_fmap, lookup_seq_lt by exact Hi.
  reflexivity.
Qed.

Lemma range_length (n : Z) : length (range n) = Z.to_nat n.
Proof. unfold range. rewrite length_fmap. apply length_seq. Qed.

Lemma range_NoDup (n : Z) : NoDup (range n).
Proof.
  unfold range. apply NoDup_fmap_2; [apply Nat2Z.inj' | apply NoDup_seq].
Qed.

Lemma follower_entry_username (date : string) (i : Z) :
  follower_entry date i !! "username" = Some ("user_" ++ pretty i)%string.
Proof.
  unfold follower_entry.
  rewrite lookup_insert_ne by discriminate. apply lookup_insert_eq.
Qed.

Lemma follower_entry_id (date : string) (i : Z) :
  follower_entry date i !! "id" = Some ("follower_" ++ pretty i)%string.
Proof. unfold follower_entry. apply lookup_insert_eq. Qed.

Lemma dictionaries_JDict (l : list (gmap string string)) :
  dictionaries (Dashboard.JDict <$> l) = l.
Proof.
  unfold dictionaries. induction l as [| d l IH]; [reflexivity |].
  rewrite fmap_cons. cbn [flat_map app]. rewrite IH. reflexivity.
Qed.

(** X20.  [get_followers_list] returns at its first attempt, without a
    sleep, [limit or 10] followers: 10 when the limit is [None] and also
    when it is 0, none when it is negative.  Follower number [i] has the id
    [follower_i] and the username [user_i], so the usernames differ from
    one another, and the JSON ingestion of the dashboard takes the list as
    it is. *)
Theorem get_followers_list_entries (now : Z -> string) (account_id : string)
  (limit : option Z) (w : Util.World (list string)) :
  exists followers,
    get_followers_list now account_id limit w =
      (Return (Some followers),
       {| Util.user :=
            info ("Getting followers list for account " ++ account_id)
              (Util.user w);
          Util.trace := Util.trace w ++ [Util.Call 0] |}) /\
    length followers =
      match limit with
      | None | Some 0%Z => 10%nat
      | Some l => Z.to_nat l
      end /\
    (forall i, (i < length followers)%nat ->
       exists follower,
         followers !! i = Some follower /\
         follower !! "id" = Some ("follower_" ++ pretty (Z.of_nat i))%string /\
         follower !! "username"
           = Some ("user_" ++ pretty (Z.of_nat i))%string) /\
    NoDup ((fun follower => follower !! "username") <$> followers) /\
    Dashboard.process_json_data (Dashboard.JDict <$> followers)
      = Return followers.
Proof.
  eexists. split; [reflexivity |].
  rewrite length_fmap, range_length. split.
  { unfold limit_or_10. destruct limit as [[| l | l] |]; reflexivity. }
  split.
  { intros i Hi. rewrite list_lookup_fmap, range_lookup by exact Hi. simpl.
    eexists. split; [reflexivity |].
    split; [apply follower_entry_id | apply follower_entry_username]. }
  split.
  { rewrite <- list_fmap_compose.
    rewrite (list_fmap_ext _
               (fun i : Z => Some ("user_" ++ pretty i)%string));
      [| intros _ i _; apply follower_entry_username].
    apply NoDup_fmap_2; [| apply range_NoDup].
    intros x y H. simpl in H. injection H as H.
    exact (pretty_Z_inj _ _ H). }
  unfold Dashboard.process_json_data. apply process_json_loop_outcome.
  rewrite dictionaries_JDict. split; [reflexivity |].
  apply Forall_fmap, Forall_forall. intros i _. simpl.
  rewrite follower_entry_username. eauto.
Qed.

(** Asking for no follower gives ten. *)
Example followers_limit_zero :
  exists followers w',
    get_followers_list (fun _ => "2026-01-01T00:00:00") "acct" (Some 0%Z)
      {| Util.user := []; Util.trace := [] |} = (Return (Some followers), w') /\
    length followers = 10%nat /\
    (fun follower => follower !! "username") <$> followers =
      [ Some "user_0"; Some "user_1"; Some "user_2"; Some "user_3";
        Some "user_4"; Some "user_5"; Some "user_6"; Some "user_7";
        Some "user_8"; Some "user_9" ].
Proof.
  eexists _, _. split; [reflexivity |]. split; vm_compute; reflexivity.
Qed.

End InstagramFacts.
